(** * Verification of the talos SecurityStateController

    Shallow embedding of
    [internal/app/machined/pkg/controllers/runtime/security_state.go]:
    the one-shot controller [Run] and the fingerprint routine
    [x509CertFingerprint], together with the parts of the Go standard
    library the two rest on ([crypto/sha256], [encoding/hex],
    [strings.ToUpper], [bytes.Buffer]). *)

From Stdlib Require Import String Ascii ZArith Bool List Lia.
Import ListNotations.

Local Open Scope Z_scope.

(** ** Machine data

    A Go [byte] is an 8-bit character ([ascii]); a [[]byte] and the bytes of a
    Go [string] are lists of them.  A [uint32] is a [Z] kept below [2^32],
    a [uint64] a [Z] kept below [2^64]; every wrap-around is written out. *)

Definition byte := ascii.
Definition bytes := list byte.

Definition byte_to_Z (b : byte) : Z := Z.of_N (N_of_ascii b).
(** The conversion [byte(v)] of an unsigned integer keeps the low 8 bits. *)
Definition Z_to_byte (v : Z) : byte := ascii_of_N (Z.to_N (v mod 256)).

Definition u32 (v : Z) : Z := v mod 2 ^ 32.
Definition u64 (v : Z) : Z := v mod 2 ^ 64.

Definition add32 (a b : Z) : Z := u32 (a + b).
Definition shl32 (a : Z) (k : Z) : Z := u32 (Z.shiftl a k).
(** [^x] on a [uint32]. *)
Definition not32 (a : Z) : Z := Z.lxor a 0xffffffff.
(** [bits.RotateLeft32(x, -k)]: a rotation to the right by [k] bits. *)
Definition RotateLeft32_neg (x : Z) (k : Z) : Z :=
  Z.lor (Z.shiftr x k) (shl32 x (32 - k)).

(** [binary.BigEndian.PutUint32] and [PutUint64], as the bytes written. *)
Definition BEPutUint32 (v : Z) : bytes :=
  [Z_to_byte (Z.shiftr v 24); Z_to_byte (Z.shiftr v 16);
   Z_to_byte (Z.shiftr v 8); Z_to_byte v].

Definition BEPutUint64 (v : Z) : bytes :=
  [Z_to_byte (Z.shiftr v 56); Z_to_byte (Z.shiftr v 48);
   Z_to_byte (Z.shiftr v 40); Z_to_byte (Z.shiftr v 32);
   Z_to_byte (Z.shiftr v 24); Z_to_byte (Z.shiftr v 16);
   Z_to_byte (Z.shiftr v 8); Z_to_byte v].

(** ** crypto/sha256 *)

Module sha256.

Definition Size : nat := 32.
Definition chunk : nat := 64.

(** The round constants [_K], four to a row. *)
Definition _K : list Z :=
  List.concat
    [ [0x428a2f98; 0x71374491; 0xb5c0fbcf; 0xe9b5dba5];
      [0x3956c25b; 0x59f111f1; 0x923f82a4; 0xab1c5ed5];
      [0xd807aa98; 0x12835b01; 0x243185be; 0x550c7dc3];
      [0x72be5d74; 0x80deb1fe; 0x9bdc06a7; 0xc19bf174];
      [0xe49b69c1; 0xefbe4786; 0x0fc19dc6; 0x240ca1cc];
      [0x2de92c6f; 0x4a7484aa; 0x5cb0a9dc; 0x76f988da];
      [0x983e5152; 0xa831c66d; 0xb00327c8; 0xbf597fc7];
      [0xc6e00bf3; 0xd5a79147; 0x06ca6351; 0x14292967];
      [0x27b70a85; 0x2e1b2138; 0x4d2c6dfc; 0x53380d13];
      [0x650a7354; 0x766a0abb; 0x81c2c92e; 0x92722c85];
      [0xa2bfe8a1; 0xa81a664b; 0xc24b8b70; 0xc76c51a3];
      [0xd192e819; 0xd6990624; 0xf40e3585; 0x106aa070];
      [0x19a4c116; 0x1e376c08; 0x2748774c; 0x34b0bcb5];
      [0x391c0cb3; 0x4ed8aa4a; 0x5b9cca4f; 0x682e6ff3];
      [0x748f82ee; 0x78a5636f; 0x84c87814; 0x8cc70208];
      [0x90befffa; 0xa4506ceb; 0xbef9a3f7; 0xc67178f2] ].

(** The eight chaining words [h [8]uint32]. *)
Record words8 := W8 {
  h0 : Z; h1 : Z; h2 : Z; h3 : Z; h4 : Z; h5 : Z; h6 : Z; h7 : Z }.

(** The running hash: [x] holds the [nx] buffered bytes [d.x[:d.nx]]. *)
Record digest := Digest {
  h : words8;
  x : bytes;
  len : Z }.

Definition nx (d : digest) : nat := length (x d).

(** [d.Reset()] *)
Definition Reset : digest :=
  Digest (W8 0x6a09e667 0xbb67ae85 0x3c6ef372 0xa54ff53a
             0x510e527f 0x9b05688c 0x1f83d9ab 0x5be0cd19) [] 0.

Definition at32 (w : list Z) (i : nat) : Z := nth i w 0.

(** The first sixteen schedule words: big-endian reads of the block. *)
Definition load_be (p : bytes) (i : nat) : Z :=
  let j := (i * 4)%nat in
  let b k := byte_to_Z (nth (j + k) p zero) in
  Z.lor (Z.lor (Z.lor (Z.shiftl (b 0%nat) 24) (Z.shiftl (b 1%nat) 16))
               (Z.shiftl (b 2%nat) 8)) (b 3%nat).

(** [for i := 16; i < 64; i++ { ... w[i] = t1 + w[i-7] + t2 + w[i-16] }] *)
Definition schedule_step (w : list Z) (i : nat) : list Z :=
  let v1 := at32 w (i - 2) in
  let t1 := Z.lxor (Z.lxor (RotateLeft32_neg v1 17) (RotateLeft32_neg v1 19))
                   (Z.shiftr v1 10) in
  let v2 := at32 w (i - 15) in
  let t2 := Z.lxor (Z.lxor (RotateLeft32_neg v2 7) (RotateLeft32_neg v2 18))
                   (Z.shiftr v2 3) in
  w ++ [add32 (add32 (add32 t1 (at32 w (i - 7))) t2) (at32 w (i - 16))].

Definition schedule (p : bytes) : list Z :=
  fold_left schedule_step (seq 16 48) (map (load_be p) (seq 0 16)).

(** One round of the compression loop, on [a, b, c, d, e, f, g, h]. *)
Definition round (w : list Z) (s : words8) (i : nat) : words8 :=
  let '(W8 a b c d e f g hh) := s in
  let t1 :=
    add32 (add32 (add32 (add32 hh
      (Z.lxor (Z.lxor (RotateLeft32_neg e 6) (RotateLeft32_neg e 11))
              (RotateLeft32_neg e 25)))
      (Z.lxor (Z.land e f) (Z.land (not32 e) g)))
      (at32 _K i)) (at32 w i) in
  let t2 :=
    add32 (Z.lxor (Z.lxor (RotateLeft32_neg a 2) (RotateLeft32_neg a 13))
                  (RotateLeft32_neg a 22))
          (Z.lxor (Z.lxor (Z.land a b) (Z.land a c)) (Z.land b c)) in
  W8 (add32 t1 t2) a b c (add32 d t1) e f g.

(** The body of [blockGeneric]'s outer loop, on one 64-byte chunk. *)
Definition block1 (s : words8) (p : bytes) : words8 :=
  let w := schedule p in
  let '(W8 a b c d e f g hh) := fold_left (round w) (seq 0 64) s in
  W8 (add32 (h0 s) a) (add32 (h1 s) b) (add32 (h2 s) c) (add32 (h3 s) d)
     (add32 (h4 s) e) (add32 (h5 s) f) (add32 (h6 s) g) (add32 (h7 s) hh).

(** [for len(p) >= chunk { ...; p = p[chunk:] }], run [n] times. *)
Fixpoint blocks (n : nat) (s : words8) (p : bytes) : words8 :=
  match n with
  | O => s
  | S n' => blocks n' (block1 s (firstn chunk p)) (skipn chunk p)
  end.

(** [blockGeneric(dig, p)]: the loop runs [len(p) / chunk] times. *)
Definition block (s : words8) (p : bytes) : words8 :=
  blocks (length p / chunk) s p.

(** [d.Write(p)] *)
Definition digest_Write (d : digest) (p : bytes) : digest :=
  let len' := u64 (len d + Z.of_nat (length p)) in
  (* if d.nx > 0 { n := copy(d.x[d.nx:], p); ... p = p[n:] } *)
  let '(hs, buf, p) :=
    if (0 <? nx d)%nat then
      let n := Nat.min (chunk - nx d) (length p) in
      let buf := x d ++ firstn n p in
      if (length buf =? chunk)%nat
      then (block (h d) buf, [], skipn n p)
      else (h d, buf, skipn n p)
    else (h d, x d, p) in
  (* if len(p) >= chunk { n := len(p) &^ (chunk - 1); block(d, p[:n]); p = p[n:] } *)
  let '(hs, p) :=
    if (chunk <=? length p)%nat then
      let n := (length p / chunk * chunk)%nat in
      (block hs (firstn n p), skipn n p)
    else (hs, p) in
  (* if len(p) > 0 { d.nx = copy(d.x[:], p) } *)
  let buf := if (0 <? length p)%nat then firstn chunk p else buf in
  Digest hs buf len'.

(** The padding [checkSum] appends: [0x80], zeros up to 56 bytes mod 64,
    then the bit length as a big-endian [uint64]. *)
Definition padding (len : Z) : bytes :=
  let t := if len mod 64 <? 56 then 56 - len mod 64 else 64 + 56 - len mod 64 in
  let len := u64 (Z.shiftl len 3) in
  firstn (Z.to_nat t) (Z_to_byte 0x80 :: repeat zero 71) ++ BEPutUint64 len.

(** [d.checkSum()].  Between the padding and the output the code panics if
    the buffer is not empty ([if d.nx != 0]); lemma [Sum256_buffer_empty]
    shows that the guard never fires. *)
Definition checkSum (d : digest) : bytes :=
  let d := digest_Write d (padding (len d)) in
  BEPutUint32 (h0 (h d)) ++ BEPutUint32 (h1 (h d)) ++
  BEPutUint32 (h2 (h d)) ++ BEPutUint32 (h3 (h d)) ++
  BEPutUint32 (h4 (h d)) ++ BEPutUint32 (h5 (h d)) ++
  BEPutUint32 (h6 (h d)) ++ BEPutUint32 (h7 (h d)).

(** [sha256.Sum256(data)] *)
Definition Sum256 (data : bytes) : bytes :=
  let d := Reset in
  let d := digest_Write d data in
  checkSum d.

End sha256.

(** ** encoding/hex, strings, bytes.Buffer *)

Definition hextable : list ascii := list_ascii_of_string "0123456789abcdef".

(** The two characters [hex.Encode] writes for one byte:
    [hextable[v>>4]] and [hextable[v&0x0f]]. *)
Definition hex_byte (v : byte) : list ascii :=
  [nth (Z.to_nat (Z.shiftr (byte_to_Z v) 4)) hextable zero;
   nth (Z.to_nat (Z.land (byte_to_Z v) 0x0f)) hextable zero].

Definition hex_EncodeToString (src : bytes) : list ascii :=
  flat_map hex_byte src.

(** [strings.ToUpper] on one character of an ASCII-only string: the library's
    fast path, [c -= 'a' - 'A'] when ['a' <= c && c <= 'z'].  (A string with a
    byte from [0x80] on takes the Unicode path, which is not modelled; lemma
    [hex_EncodeToString_ascii] shows the strings upper-cased here have none.) *)
Definition ToUpper_char (c : ascii) : ascii :=
  let n := byte_to_Z c in
  if (0x61 <=? n) && (n <=? 0x7a) then Z_to_byte (n - (0x61 - 0x41)) else c.

Definition strings_ToUpper (s : list ascii) : list ascii := map ToUpper_char s.

(** [for i, b := range s]: the pairs of a byte offset and the character that
    starts there.  Every character of an ASCII-only string is one byte long, so
    the offsets count up by one. *)
Fixpoint range_from (i : Z) (s : list ascii) : list (Z * ascii) :=
  match s with
  | [] => []
  | b :: s' => (i, b) :: range_from (i + 1) s'
  end.

Definition range_string (s : list ascii) : list (Z * ascii) := range_from 0 s.

(** A [bytes.Buffer] is the list of the bytes written so far. *)
Definition Buffer := list ascii.
Definition Buffer_WriteByte (buf : Buffer) (c : ascii) : Buffer := buf ++ [c].
Definition Buffer_WriteString (buf : Buffer) (s : list ascii) : Buffer := buf ++ s.
Definition Buffer_String (buf : Buffer) : string := string_of_list_ascii buf.

(** ** x509CertFingerprint *)

(** An [x509.Certificate], of which the controller sets and reads [Raw] only. *)
Record Certificate := { Raw : bytes }.

(** The body of the [for ... range] loop. *)
Definition fingerprint_step (buf : Buffer) (ib : Z * ascii) : Buffer :=
  let '(i, b) := ib in
  let buf := if (0 <? i) && (Z.rem i 2 =? 0)
             then Buffer_WriteByte buf ":"%char else buf in
  Buffer_WriteString buf (strings_ToUpper [b]).

Definition x509CertFingerprint (cert : Certificate) : string :=
  let hash := sha256.Sum256 (Raw cert) in
  let buf :=
    fold_left fingerprint_step (range_string (hex_EncodeToString hash)) [] in
  Buffer_String buf.

(** ** The world the controller runs in *)

Inductive errno := ENOENT | EACCES | EISDIR | EIO.

Inductive error :=
| Errorf (msg : string)          (* an error made by [fmt.Errorf] *)
| PathError (e : errno)          (* what [os.ReadFile] reports *)
| RuntimeError (msg : string).   (* what the runtime's [Modify] reports *)

(** A [pem.Block]. *)
Record Block := {
  Type_ : string;
  Headers : list (string * string);
  Bytes : bytes }.

(** Modelled from the spec: the declaration of [runtimeres.SecurityStateSpec]
    (package [pkg/machinery/resources/runtime]) is not among the sources; the
    data model gives the resource the two attributes [secureBoot: bool] and
    [pcrSigningKeyFingerprint: string], the empty string standing for an
    absent fingerprint. *)
Record SecurityStateSpec := {
  SecureBoot : bool;
  PCRSigningKeyFingerprint : string }.

(** [runtimeres.NewSecurityStateSpec(runtimeres.NamespaceName)]: the resource
    with Go's zero values in its fields. *)
Definition NewSecurityStateSpec : SecurityStateSpec :=
  {| SecureBoot := false; PCRSigningKeyFingerprint := EmptyString |}.

(** What may arrive while [Run] waits in its [select]. *)
Inductive signal := Cancel | Event.

(** What an execution does to the outside, in order. *)
Inductive effect :=
| Received                         (* one event taken from [r.EventCh()] *)
| FileRead                         (* [os.ReadFile(constants.PCRPublicKey)] *)
| Committed (s : SecurityStateSpec). (* a value the runtime stored *)

Record World := mkWorld {
  (* context and runtime *)
  ctxDone : bool;                   (* [ctx.Done()] is closed *)
  eventCh : nat;                    (* events waiting in [r.EventCh()] *)
  arrivals : list signal;           (* what arrives, in order, during a wait *)
  coin : bool;                      (* [select]'s pick when both cases are
                                       ready: [true] for [ctx.Done()] *)
  resource : option SecurityStateSpec; (* the singleton, once created *)
  faults : list (option error);     (* the runtime's answer to each [Modify]
                                       in turn; [None], or none left: accepted *)
  (* firmware *)
  GetSecureBoot : bool;
  GetSetupMode : bool;
  (* file system *)
  PCRPublicKey : error + bytes }.

Definition with_wait (d : bool) (n : nat) (a : list signal) (w : World) : World :=
  mkWorld d n a (coin w) (resource w) (faults w)
          (GetSecureBoot w) (GetSetupMode w) (PCRPublicKey w).

Definition with_resource (r : option SecurityStateSpec) (w : World) : World :=
  mkWorld (ctxDone w) (eventCh w) (arrivals w) (coin w) r (faults w)
          (GetSecureBoot w) (GetSetupMode w) (PCRPublicKey w).

Definition with_faults (f : list (option error)) (w : World) : World :=
  mkWorld (ctxDone w) (eventCh w) (arrivals w) (coin w) (resource w) f
          (GetSecureBoot w) (GetSetupMode w) (PCRPublicKey w).

(** ** A state monad that also records the effects *)

Definition M (A : Type) : Type := World -> A * World * list effect.

Definition ret {A} (a : A) : M A := fun w => (a, w, []).

Definition bind {A B} (m : M A) (k : A -> M B) : M B :=
  fun w =>
    let '(a, w1, e1) := m w in
    let '(b, w2, e2) := k a w1 in
    (b, w2, e1 ++ e2).

Notation "x <- m ;; k" := (bind m (fun x => k))
  (at level 61, m at next level, right associativity).

Definition result {A} (r : A * World * list effect) : A := fst (fst r).
Definition world {A} (r : A * World * list effect) : World := snd (fst r).
Definition effects {A} (r : A * World * list effect) : list effect := snd r.

(** *** The collaborators *)

Inductive selected := caseDone | caseEvent.

(** [select { case <-ctx.Done(): ...; case <-r.EventCh(): ... }].  A ready
    case is taken at once, [coin] deciding between two ready ones; with none
    ready the goroutine sleeps until the next arrival, and for ever ([None])
    when nothing arrives. *)
Definition select_Done_EventCh : M (option selected) := fun w =>
  match ctxDone w, eventCh w with
  | true, O => (Some caseDone, w, [])
  | true, S n =>
      if coin w then (Some caseDone, w, [])
      else (Some caseEvent, with_wait true n (arrivals w) w, [Received])
  | false, S n => (Some caseEvent, with_wait false n (arrivals w) w, [Received])
  | false, O =>
      match arrivals w with
      | [] => (None, w, [])
      | Cancel :: rest => (Some caseDone, with_wait true O rest w, [])
      | Event :: rest => (Some caseEvent, with_wait false O rest w, [Received])
      end
  end.

Definition efi_GetSecureBoot : M bool := fun w => (GetSecureBoot w, w, []).
Definition efi_GetSetupMode : M bool := fun w => (GetSetupMode w, w, []).

Definition os_ReadFile_PCRPublicKey : M (error + bytes) :=
  fun w => (PCRPublicKey w, w, [FileRead]).

(** Modelled from the spec: [safe.WriterModify] belongs to the resource
    runtime, an outside collaborator; the interface section describes it as a
    modify-or-create primitive that applies a mutation function to the current
    value, or to a freshly default-constructed one, and commits the outcome.
    A failure of the runtime or of the mutation function commits nothing. *)
Definition WriterModify (emptyResource : SecurityStateSpec)
    (fn : SecurityStateSpec -> SecurityStateSpec * option error)
    : M (option error) := fun w =>
  let w' := with_faults (tl (faults w)) w in
  match hd None (faults w) with
  | Some e => (Some e, w', [])
  | None =>
      let current := match resource w with
                     | Some s => s
                     | None => emptyResource
                     end in
      match fn current with
      | (_, Some e) => (Some e, w', [])
      | (s, None) => (None, with_resource (Some s) w', [Committed s])
      end
  end.

(** ** SecurityStateController.Run *)

(** [state.TypedSpec().SecureBoot = v] *)
Definition set_SecureBoot (v : bool) (s : SecurityStateSpec) :=
  {| SecureBoot := v; PCRSigningKeyFingerprint := PCRSigningKeyFingerprint s |}.

(** [state.TypedSpec().PCRSigningKeyFingerprint = v] *)
Definition set_PCRSigningKeyFingerprint (v : string) (s : SecurityStateSpec) :=
  {| SecureBoot := SecureBoot s; PCRSigningKeyFingerprint := v |}.

(** How a call of [Run] ends: it returns an [error] ([None] for [nil]), or
    it never leaves its [select]. *)
Inductive outcome := Blocked | Returned (err : option error).

(** The mutation functions handed to [safe.WriterModify]. *)
Definition posture_fn (secureBootState : bool) (state : SecurityStateSpec)
    : SecurityStateSpec * option error :=
  (set_SecureBoot secureBootState state, None).

Definition fingerprint_fn (cert : Certificate) (state : SecurityStateSpec)
    : SecurityStateSpec * option error :=
  (set_PCRSigningKeyFingerprint (x509CertFingerprint cert) state, None).

Definition errDecodePEM : error :=
  Errorf "failed to decode PEM block for PCR public key".

Section Controller.

(** [pem.Decode] of the Go standard library: the first PEM block of the
    input, if there is one, and the rest of the input. *)
Variable pem_Decode : bytes -> option Block * bytes.

(** Lines 59 to 93 of [Run]: what it does once the event has been taken. *)
Definition Run_body : M outcome :=
enabled <- efi_GetSecureBoot ;;
cond <- (if enabled
         then (setup <- efi_GetSetupMode ;; ret (negb setup))
         else ret false) ;;
let secureBootState := if cond then true else false in
err <- WriterModify NewSecurityStateSpec (posture_fn secureBootState) ;;
match err with
| Some e => ret (Returned (Some e))
| None =>
    r <- os_ReadFile_PCRPublicKey ;;
    match r with
    | inr pcrPublicKeyData =>
        let '(block, _) := pem_Decode pcrPublicKeyData in
        match block with
        | None => ret (Returned (Some errDecodePEM))
        | Some block =>
            let cert := {| Raw := Bytes block |} in
            err <- WriterModify NewSecurityStateSpec (fingerprint_fn cert) ;;
            match err with
            | Some e => ret (Returned (Some e))
            | None => ret (Returned None)
            end
        end
    | inl _ => ret (Returned None)
    end
end.

(** [Run]: the [select] of lines 53 to 57, then the body. *)
Definition Run : M outcome :=
c <- select_Done_EventCh ;;
match c with
| None => ret Blocked
| Some caseDone => ret (Returned None)
| Some caseEvent => Run_body
end.

End Controller.

(** ** Specification-level readings of the fingerprint format *)

(** The characters an upper-case hexadecimal numeral is made of. *)
Definition is_upper_hex (c : ascii) : bool :=
  existsb (Ascii.eqb c) (list_ascii_of_string "0123456789ABCDEF").

Definition is_lower_hex (c : ascii) : bool :=
  existsb (Ascii.eqb c) (list_ascii_of_string "0123456789abcdef").

(** A character of the ASCII range, one byte in UTF-8. *)
Definition is_7bit (c : ascii) : bool := byte_to_Z c <? 0x80.

(** A colon before every even-indexed position except position 0; [i] is
    the position of the head of [s]. *)
Fixpoint colonize (i : nat) (s : list ascii) : list ascii :=
  match s with
  | [] => []
  | c :: s' =>
      (if negb (i =? 0)%nat && Nat.even i then [":"%char; c] else [c])
        ++ colonize (S i) s'
  end.

(** The format as the design describes it: the hex string with the colons
    inserted, every character in upper case. *)
Definition fingerprint_format (hexs : list ascii) : string :=
  string_of_list_ascii (map ToUpper_char (colonize 0 hexs)).

(** The two upper-case hex characters of one digest byte. *)
Definition group_chars (v : byte) : list ascii := strings_ToUpper (hex_byte v).
Definition group (v : byte) : string := string_of_list_ascii (group_chars v).

(** The format read as groups: one two-character group per digest byte,
    joined by colons. *)
Definition fingerprint_groups (digest : bytes) : string :=
  String.concat ":" (map group digest).

(** A group is two upper-case hex characters. *)
Definition is_group (g : string) : bool :=
  match list_ascii_of_string g with
  | [a; b] => is_upper_hex a && is_upper_hex b
  | _ => false
  end.

(** The number of colons in a string. *)
Definition count_colons (s : string) : nat :=
  count_occ ascii_dec (list_ascii_of_string s) ":"%char.

(** ** Observations of an execution *)

(** The values committed to the runtime, in order. *)
Definition commits (es : list effect) : list SecurityStateSpec :=
  flat_map (fun e => match e with Committed s => [s] | _ => [] end) es.

(** The number of scheduling events taken from the channel. *)
Definition receives (es : list effect) : nat :=
  List.length (filter (fun e => match e with Received => true | _ => false end) es).

(** The case [Run]'s [select] leaves by, in world [w]. *)
Definition wakes_on (c : selected) (w : World) : Prop :=
  result (select_Done_EventCh w) = Some c.

(** The runtime accepts the [n]-th call of [Modify], counted from 0. *)
Definition accepted (n : nat) (w : World) : Prop :=
  nth n (faults w) None = None.

(** The value a modification starts from: the stored resource, or the
    default-constructed one. *)
Definition current (r : option SecurityStateSpec) : SecurityStateSpec :=
  match r with
  | Some s => s
  | None => NewSecurityStateSpec
  end.

(** The posture of the design: enabled and not in setup mode. *)
Definition posture (w : World) : bool := GetSecureBoot w && negb (GetSetupMode w).

(** The cancellation is seen before any scheduling event is delivered: no
    event waits in the channel, and the context is done already or its
    cancellation is the first thing to arrive. *)
Definition cancelled_first (w : World) : Prop :=
  eventCh w = O
  /\ (ctxDone w = true \/ hd_error (arrivals w) = Some Cancel).

(** More scheduling signals than [w] has: [k] further events in the channel
    and [more] further arrivals. *)
Definition deliver_more (k : nat) (more : list signal) (w : World) : World :=
  with_wait (ctxDone w) (eventCh w + k) (arrivals w ++ more) w.

(** The scheduling events within reach of an execution. *)
Definition events_available (w : World) : nat :=
  eventCh w
  + List.length (filter (fun s => match s with Event => true | _ => false end)
                        (arrivals w)).

(** The posture write, applied to what world [w] holds. *)
Definition posture_write (w : World) : SecurityStateSpec :=
  set_SecureBoot (posture w) (current (resource w)).

(** The world after the posture write has been committed. *)
Definition posture_written (w : World) : World :=
  with_resource (Some (posture_write w)) (with_faults (tl (faults w)) w).

(** The fingerprint write of [block], applied on top of the posture write. *)
Definition fingerprint_write (block : Block) (w : World) : SecurityStateSpec :=
  set_PCRSigningKeyFingerprint (x509CertFingerprint {| Raw := Bytes block |})
                               (posture_write w).

(** ** Sample inputs *)

Definition newline : ascii := "010"%char.

(** A key file that holds no PEM block. *)
Definition no_PEM : bytes := list_ascii_of_string "not a certificate".

(** A key file with one PEM block around the three bytes [00 01 02], which
    are no DER certificate, and a line of text after the block. *)
Definition sample_PEM : bytes :=
  list_ascii_of_string "-----BEGIN CERTIFICATE-----" ++ [newline]
  ++ list_ascii_of_string "AAEC" ++ [newline]
  ++ list_ascii_of_string "-----END CERTIFICATE-----" ++ [newline]
  ++ list_ascii_of_string "trailing text".

Definition sample_block : Block :=
  {| Type_ := "CERTIFICATE"; Headers := [];
     Bytes := [ascii_of_nat 0; ascii_of_nat 1; ascii_of_nat 2] |}.

(** What [pem.Decode] answers on the two sample files: the block and the
    rest for [sample_PEM], no block and the whole input otherwise. *)
Definition sample_Decode (data : bytes) : option Block * bytes :=
  if String.eqb (string_of_list_ascii data) (string_of_list_ascii sample_PEM)
  then (Some sample_block, list_ascii_of_string "trailing text")
  else (None, data).

(** A freshly booted machine: nothing cancelled, the first scheduling event
    on its way, no resource yet, a runtime that accepts every write, secure
    boot enabled and out of setup mode; [key] is what reading the key file
    gives. *)
Definition booted (key : error + bytes) : World :=
  mkWorld false 0 [Event] false None [] true false key.

(** ** Further observations *)

(** The runtime refuses the [n]-th call of [Modify], counted from 0, with
    error [e]. *)
Definition refused (n : nat) (e : error) (w : World) : Prop :=
  nth n (faults w) None = Some e.

(** The fingerprint a reader finds: that of the stored resource, the empty
    string while there is none. *)
Definition fingerprint_of (r : option SecurityStateSpec) : string :=
  PCRSigningKeyFingerprint (current r).

(** A second start of the controller on the machine that [w1] describes,
    after [Run] ran in [w1] and left the world [w1']: the firmware and the
    key file are the same, and the resource is as the first run left it. *)
Definition restarted (w1 w1' w2 : World) : Prop :=
  GetSecureBoot w2 = GetSecureBoot w1
  /\ GetSetupMode w2 = GetSetupMode w1
  /\ PCRPublicKey w2 = PCRPublicKey w1
  /\ resource w2 = resource w1'.

(** A freshly booted machine, as [booted], whose runtime answers the calls
    of [Modify] by [f]. *)
Definition booted_with (f : list (option error)) (key : error + bytes) : World :=
  mkWorld false 0 [Event] false None f true false key.

(** The same machine at a second start of the controller: an event waits,
    the resource is the one world [w'] holds. *)
Definition started_again (w' : World) (key : error + bytes) : World :=
  mkWorld false 1 [] false (resource w') [] true false key.

(** *** Reading a fingerprint back *)

(** The value of an upper-case hex digit. *)
Definition unhex_digit (c : ascii) : option Z :=
  let n := byte_to_Z c in
  if (0x30 <=? n) && (n <=? 0x39) then Some (n - 0x30)
  else if (0x41 <=? n) && (n <=? 0x46) then Some (n - 0x41 + 10)
  else None.

(** The byte two upper-case hex digits stand for. *)
Definition unhex_pair (a b : ascii) : option byte :=
  match unhex_digit a, unhex_digit b with
  | Some hi, Some lo => Some (Z_to_byte (hi * 16 + lo))
  | _, _ => None
  end.

(** The bytes of a string of two-digit groups with a colon between any two
    neighbours; [None] for any other string. *)
Fixpoint parse_groups (s : list ascii) : option bytes :=
  match s with
  | a :: b :: rest =>
      match unhex_pair a b with
      | None => None
      | Some v =>
          match rest with
          | [] => Some [v]
          | c :: rest' =>
              if Ascii.eqb c ":"%char
              then option_map (cons v) (parse_groups rest')
              else None
          end
      end
  | _ => None
  end.

Definition parse_fingerprint (s : string) : option bytes :=
  parse_groups (list_ascii_of_string s).

(** ** Proof tactics *)

Arguments x509CertFingerprint : simpl never.


(** Case analysis on the 256 values of a byte. *)
Ltac each_byte v := destruct v as [[] [] [] [] [] [] [] []]; vm_compute; reflexivity.

(** Reduction of the projections and updates of a world. *)
Ltac wsimp :=
  cbn [negb GetSecureBoot GetSetupMode faults PCRPublicKey resource ctxDone
       eventCh arrivals coin with_faults with_resource with_wait app].

Ltac body_path w :=
  destruct w as [d n a c r f sb sm k];
  cbn [faults PCRPublicKey] in *;
  unfold Run_body, bind, efi_GetSecureBoot, efi_GetSetupMode, WriterModify,
    os_ReadFile_PCRPublicKey, ret, posture_fn, fingerprint_fn;
  cbn [GetSecureBoot GetSetupMode faults PCRPublicKey resource];
  destruct sb, sm;
  cbn [negb GetSecureBoot GetSetupMode faults PCRPublicKey resource
       with_faults with_resource app].

(** ** Facts about the library models *)

Lemma string_of_list_ascii_length (l : list ascii) :
  String.length (string_of_list_ascii l) = List.length l.
Proof. induction l as [|c l IH]; simpl; congruence. Qed.

Lemma string_of_list_ascii_app (l1 l2 : list ascii) :
  string_of_list_ascii (l1 ++ l2)
  = (string_of_list_ascii l1 ++ string_of_list_ascii l2)%string.
Proof. induction l1 as [|c l1 IH]; simpl; congruence. Qed.

Lemma BEPutUint32_length (v : Z) : List.length (BEPutUint32 v) = 4%nat.
Proof. reflexivity. Qed.

(** [checkSum] fills a [[Size]byte]: eight words of four bytes each. *)
Lemma checkSum_length (d : sha256.digest) :
  List.length (sha256.checkSum d) = sha256.Size.
Proof.
  unfold sha256.checkSum.
  repeat rewrite length_app. repeat rewrite BEPutUint32_length. reflexivity.
Qed.

Lemma Sum256_length (data : bytes) :
  List.length (sha256.Sum256 data) = 32%nat.
Proof. unfold sha256.Sum256. apply checkSum_length. Qed.

(** [d.Write] keeps the buffer below a chunk: it holds the bytes past the
    last whole block. *)
Lemma digest_Write_nx (d : sha256.digest) (p : bytes) :
  (sha256.nx d < 64)%nat ->
  sha256.nx (sha256.digest_Write d p)
  = ((sha256.nx d + List.length p) mod 64)%nat.
Proof.
  unfold sha256.digest_Write, sha256.nx, sha256.chunk.
  destruct d as [hs buf l]; cbn [sha256.x sha256.h sha256.len].
  intros B.
  destruct (0 <? List.length buf)%nat eqn:P.
  - apply Nat.ltb_lt in P.
    destruct (List.length (buf ++ firstn (Nat.min (64 - List.length buf) (List.length p)) p) =? 64)%nat eqn:Q.
    + apply Nat.eqb_eq in Q. rewrite length_app, length_firstn in Q.
      set (p' := skipn (Nat.min (64 - List.length buf) (List.length p)) p).
      assert (Lp : List.length p' = (List.length buf + List.length p - 64)%nat)
        by (unfold p'; rewrite length_skipn; lia).
      destruct (64 <=? List.length p')%nat eqn:R.
      * apply Nat.leb_le in R.
        cbn [sha256.x].
        rewrite length_skipn.
        destruct (0 <? List.length p' - List.length p' / 64 * 64)%nat eqn:T.
        -- apply Nat.ltb_lt in T. rewrite length_firstn, length_skipn.
           rewrite Lp in *.
           pose proof (Nat.div_mod_eq (List.length buf + List.length p - 64) 64).
           pose proof (Nat.div_mod_eq (List.length buf + List.length p) 64).
           pose proof (Nat.mod_upper_bound (List.length buf + List.length p - 64) 64).
           pose proof (Nat.mod_upper_bound (List.length buf + List.length p) 64).
           lia.
        -- apply Nat.ltb_ge in T. cbn [List.length]. rewrite Lp in *. 
           pose proof (Nat.div_mod_eq (List.length buf + List.length p - 64) 64).
           pose proof (Nat.div_mod_eq (List.length buf + List.length p) 64).
           pose proof (Nat.mod_upper_bound (List.length buf + List.length p - 64) 64).
           pose proof (Nat.mod_upper_bound (List.length buf + List.length p) 64).
           lia.
      * apply Nat.leb_gt in R. cbn [sha256.x].
        destruct (0 <? List.length p')%nat eqn:T.
        -- rewrite length_firstn. rewrite Lp in *.
           pose proof (Nat.div_mod_eq (List.length buf + List.length p) 64).
           pose proof (Nat.mod_upper_bound (List.length buf + List.length p) 64).
           lia.
        -- apply Nat.ltb_ge in T. cbn [List.length]. rewrite Lp in *.
           pose proof (Nat.div_mod_eq (List.length buf + List.length p) 64).
           pose proof (Nat.mod_upper_bound (List.length buf + List.length p) 64).
           lia.
    + apply Nat.eqb_neq in Q. rewrite length_app, length_firstn in Q.
      assert (Lp : (List.length buf + List.length p < 64)%nat) by lia.
      assert (E : skipn (Nat.min (64 - List.length buf) (List.length p)) p = [])
        by (apply skipn_all2; lia).
      rewrite E. cbn [List.length Nat.leb Nat.ltb sha256.x]. rewrite length_app, length_firstn.
      rewrite Nat.mod_small by lia. lia.
  - apply Nat.ltb_ge in P. assert (Lb : List.length buf = 0%nat) by lia.
    rewrite Lb. cbn [Nat.add].
    destruct (64 <=? List.length p)%nat eqn:R.
    + cbn [sha256.x]. rewrite length_skipn.
      destruct (0 <? List.length p - List.length p / 64 * 64)%nat eqn:T.
      * rewrite length_firstn, length_skipn.
        pose proof (Nat.div_mod_eq (List.length p) 64).
        pose proof (Nat.mod_upper_bound (List.length p) 64). lia.
      * apply Nat.ltb_ge in T. rewrite Lb.
        pose proof (Nat.div_mod_eq (List.length p) 64).
        pose proof (Nat.mod_upper_bound (List.length p) 64). lia.
    + apply Nat.leb_gt in R. cbn [sha256.x].
      destruct (0 <? List.length p)%nat eqn:T.
      * rewrite length_firstn. rewrite Nat.mod_small by lia. lia.
      * apply Nat.ltb_ge in T. rewrite Lb. rewrite Nat.mod_small by lia. lia.
Qed.

(** [d.Write] adds the bytes written to [d.len], modulo [2^64]. *)
Lemma digest_Write_len (d : sha256.digest) (p : bytes) :
  sha256.len (sha256.digest_Write d p)
  = u64 (sha256.len d + Z.of_nat (List.length p)).
Proof.
  unfold sha256.digest_Write.
  destruct (0 <? sha256.nx d)%nat;
    [destruct (List.length _ =? sha256.chunk)%nat|];
    match goal with
    | |- context [(sha256.chunk <=? List.length ?q)%nat] =>
        destruct (sha256.chunk <=? List.length q)%nat
    end; reflexivity.
Qed.

(** The padding completes a message of [l] bytes to whole blocks. *)
Lemma padding_length (l : Z) :
  (0 <= l)%Z ->
  ((Z.of_nat (List.length (sha256.padding l)) + l) mod 64 = 0)%Z.
Proof.
  intros L. unfold sha256.padding.
  rewrite length_app. change (List.length (BEPutUint64 _)) with 8%nat.
  rewrite length_firstn. cbn [List.length]. rewrite repeat_length.
  destruct (l mod 64 <? 56)%Z eqn:C;
    [apply Z.ltb_lt in C | apply Z.ltb_ge in C];
    Z.to_euclidean_division_equations; lia.
Qed.

(** The guard [if d.nx != 0 { panic("d.nx != 0") }] of [checkSum] never
    fires in [Sum256]: the padded input fills whole blocks. *)
Lemma Sum256_buffer_empty (data : bytes) :
  sha256.nx (sha256.digest_Write (sha256.digest_Write sha256.Reset data)
               (sha256.padding
                  (sha256.len (sha256.digest_Write sha256.Reset data))))
  = 0%nat.
Proof.
  assert (N : sha256.nx (sha256.digest_Write sha256.Reset data)
              = (List.length data mod 64)%nat)
    by (rewrite digest_Write_nx; [reflexivity | cbn; lia]).
  assert (B : (sha256.nx (sha256.digest_Write sha256.Reset data) < 64)%nat)
    by (rewrite N; apply Nat.mod_upper_bound; lia).
  rewrite (digest_Write_nx _ _ B), N.
  pose proof (digest_Write_len sha256.Reset data) as Ln.
  change (sha256.len sha256.Reset) with 0%Z in Ln. unfold u64 in Ln.
  set (l := sha256.len (sha256.digest_Write sha256.Reset data)) in *.
  assert (L0 : (0 <= l)%Z) by (rewrite Ln; apply Z.mod_pos_bound; lia).
  pose proof (padding_length l L0) as P.
  apply Nat2Z.inj. rewrite Nat2Z.inj_mod, Nat2Z.inj_add, Nat2Z.inj_mod.
  change (Z.of_nat 64) with 64%Z. change (Z.of_nat 0) with 0%Z.
  set (n := Z.of_nat (List.length data)) in *.
  set (q := Z.of_nat (List.length (sha256.padding l))) in *.
  assert (0 <= n)%Z by (unfold n; lia).
  assert (0 <= q)%Z by (unfold q; lia).
  clearbody l n q. subst l.
  change (2 ^ 64)%Z with 18446744073709551616%Z in *.
  Z.to_euclidean_division_equations. lia.
Qed.

Lemma hex_EncodeToString_length (src : bytes) :
  List.length (hex_EncodeToString src) = (2 * List.length src)%nat.
Proof.
  unfold hex_EncodeToString.
  induction src as [|v src IH]; [reflexivity|].
  cbn [flat_map]. rewrite length_app, IH. cbn [hex_byte List.length]. lia.
Qed.

Lemma hex_byte_lower (v : byte) : forallb is_lower_hex (hex_byte v) = true.
Proof. each_byte v. Qed.

Lemma hex_byte_7bit (v : byte) : forallb is_7bit (hex_byte v) = true.
Proof. each_byte v. Qed.

Lemma group_is_group (v : byte) : is_group (group v) = true.
Proof. each_byte v. Qed.

(** [hex.EncodeToString] yields ASCII characters only, so that ranging over
    the string visits it byte by byte and [strings.ToUpper] stays on its
    ASCII path. *)
Lemma hex_EncodeToString_ascii (src : bytes) :
  forallb is_7bit (hex_EncodeToString src) = true.
Proof.
  unfold hex_EncodeToString.
  induction src as [|v src IH]; [reflexivity|].
  cbn [flat_map]. rewrite forallb_app, IH, hex_byte_7bit. reflexivity.
Qed.

Lemma colon_upper : ToUpper_char ":"%char = ":"%char.
Proof. reflexivity. Qed.

(** The loop's test [i > 0 && i%2 == 0] at a position counted in [nat]. *)
Lemma loop_test (i : nat) :
  (0 <? Z.of_nat i) && (Z.rem (Z.of_nat i) 2 =? 0)
  = negb (i =? 0)%nat && Nat.even i.
Proof.
  rewrite Z.rem_mod_nonneg by lia.
  destruct (Nat.even i) eqn:E.
  - apply Nat.even_spec in E. destruct E as [k ->].
    replace (Z.of_nat (2 * k)) with (Z.of_nat k * 2) by lia.
    rewrite Z.mod_mul by lia.
    destruct k; [reflexivity|].
    replace (0 <? Z.of_nat (S k) * 2) with true by (symmetry; apply Z.ltb_lt; lia).
    reflexivity.
  - assert (O : Nat.odd i = true) by (rewrite <- Nat.negb_even, E; reflexivity).
    apply Nat.odd_spec in O. destruct O as [k ->].
    replace (Z.of_nat (2 * k + 1)) with (1 + Z.of_nat k * 2) by lia.
    rewrite Z.mod_add by lia. rewrite !andb_false_r. reflexivity.
Qed.

(** The loop of [x509CertFingerprint], from any position and any buffer. *)
Lemma fingerprint_loop (s : list ascii) : forall (i : nat) (buf : Buffer),
  fold_left fingerprint_step (range_from (Z.of_nat i) s) buf
  = buf ++ map ToUpper_char (colonize i s).
Proof.
  induction s as [|c s IH]; intros i buf.
  - simpl. now rewrite app_nil_r.
  - cbn [range_from fold_left colonize].
    replace (Z.of_nat i + 1) with (Z.of_nat (S i)) by lia.
    rewrite IH. unfold fingerprint_step.
    rewrite loop_test.
    unfold Buffer_WriteString, Buffer_WriteByte, strings_ToUpper.
    destruct (negb (i =? 0)%nat && Nat.even i);
      cbn [map app]; rewrite ?colon_upper, <- ?app_assoc; reflexivity.
Qed.

(** Upper-casing after inserting the colons, group by group: past the
    first group every group comes with a colon in front. *)
Lemma colonize_later (digest : bytes) : forall k : nat,
  map ToUpper_char (colonize (2 * S k) (hex_EncodeToString digest))
  = flat_map (fun v => ":"%char :: group_chars v) digest.
Proof.
  induction digest as [|v digest IH]; intros k; [reflexivity|].
  unfold hex_EncodeToString in *. cbn [flat_map hex_byte app colonize].
  replace (S (S (2 * S k))) with (2 * S (S k))%nat by lia.
  assert (E : Nat.even (2 * S k) = true)
    by (apply Nat.even_spec; exists (S k); reflexivity).
  assert (O : Nat.even (S (2 * S k)) = false)
    by (rewrite Nat.even_succ, <- Nat.negb_even, E; reflexivity).
  rewrite E, O. replace ((2 * S k =? 0)%nat) with false by reflexivity.
  rewrite andb_false_r. cbn [negb andb app map].
  rewrite IH, colon_upper. reflexivity.
Qed.

Lemma colonize_first (v : byte) (digest : bytes) :
  map ToUpper_char (colonize 0 (hex_EncodeToString (v :: digest)))
  = group_chars v ++ flat_map (fun v => ":"%char :: group_chars v) digest.
Proof.
  unfold hex_EncodeToString. cbn [flat_map hex_byte app colonize].
  cbn [Nat.eqb negb andb Nat.even app map].
  change 2%nat with (2 * 1)%nat.
  pose proof (colonize_later digest 0) as L. unfold hex_EncodeToString in L.
  rewrite L. reflexivity.
Qed.

Lemma append_empty_r (s : string) : (s ++ "")%string = s.
Proof. induction s as [|c s IH]; simpl; congruence. Qed.

Lemma string_length_append (s t : string) :
  String.length (s ++ t) = (String.length s + String.length t)%nat.
Proof. induction s as [|c s IH]; simpl; congruence. Qed.

Lemma string_append_assoc (s t u : string) :
  ((s ++ t) ++ u)%string = (s ++ (t ++ u))%string.
Proof. induction s as [|c s IH]; simpl; congruence. Qed.

Lemma concat_empty_cons (x : string) (xs : list string) :
  String.concat "" (x :: xs) = (x ++ String.concat "" xs)%string.
Proof. destruct xs; simpl; [now rewrite append_empty_r | reflexivity]. Qed.

(** Joining with a separator puts it in front of every element but the
    first. *)
Lemma concat_sep_cons (sep x : string) (xs : list string) :
  String.concat sep (x :: xs)
  = (x ++ String.concat "" (map (fun y => sep ++ y) xs))%string.
Proof.
  revert x. induction xs as [|y xs IH]; intros x.
  - simpl. now rewrite append_empty_r.
  - change (String.concat sep (x :: y :: xs))
      with (x ++ sep ++ String.concat sep (y :: xs))%string.
    rewrite IH. cbn [map]. rewrite concat_empty_cons, string_append_assoc.
    reflexivity.
Qed.

Lemma concat_empty_flat (digest : bytes) :
  String.concat "" (map (fun y => (":" ++ y)%string) (map group digest))
  = string_of_list_ascii (flat_map (fun v => ":"%char :: group_chars v) digest).
Proof.
  induction digest as [|v digest IH]; [reflexivity|].
  cbn [map flat_map]. rewrite concat_empty_cons, IH.
  change (":"%char :: group_chars v ++ ?t)
    with ((":"%char :: group_chars v) ++ t).
  rewrite string_of_list_ascii_app. reflexivity.
Qed.

(** The two readings of the format agree on every digest. *)
Lemma format_groups (digest : bytes) :
  fingerprint_format (hex_EncodeToString digest) = fingerprint_groups digest.
Proof.
  unfold fingerprint_format, fingerprint_groups.
  destruct digest as [|v digest]; [reflexivity|].
  rewrite colonize_first. cbn [map].
  rewrite concat_sep_cons, concat_empty_flat, string_of_list_ascii_app.
  reflexivity.
Qed.

(** The code's loop computes the format of its hex string. *)
Lemma x509CertFingerprint_loop (cert : Certificate) :
  x509CertFingerprint cert
  = fingerprint_format (hex_EncodeToString (sha256.Sum256 (Raw cert))).
Proof.
  unfold x509CertFingerprint, range_string, Buffer_String, fingerprint_format.
  change 0 with (Z.of_nat 0). now rewrite fingerprint_loop.
Qed.

Lemma group_chars_length (v : byte) : List.length (group_chars v) = 2%nat.
Proof. reflexivity. Qed.

Lemma group_chars_no_colon (v : byte) :
  count_occ ascii_dec (group_chars v) ":"%char = 0%nat.
Proof. each_byte v. Qed.

Lemma later_groups_length (digest : bytes) :
  List.length (flat_map (fun v => ":"%char :: group_chars v) digest)
  = (3 * List.length digest)%nat.
Proof.
  induction digest as [|v digest IH]; [reflexivity|].
  cbn [flat_map]. rewrite length_app, IH. cbn [List.length group_chars_length].
  rewrite group_chars_length. lia.
Qed.

Lemma later_groups_colons (digest : bytes) :
  count_occ ascii_dec (flat_map (fun v => ":"%char :: group_chars v) digest)
            ":"%char
  = List.length digest.
Proof.
  induction digest as [|v digest IH]; [reflexivity|].
  cbn [flat_map]. rewrite count_occ_app, IH.
  rewrite count_occ_cons_eq by reflexivity.
  rewrite group_chars_no_colon. reflexivity.
Qed.

(** Length and number of colons of the format, for a digest of [n + 1]
    bytes. *)
Lemma format_measure (v : byte) (digest : bytes) :
  String.length (fingerprint_format (hex_EncodeToString (v :: digest)))
  = (2 + 3 * List.length digest)%nat
  /\ count_colons (fingerprint_format (hex_EncodeToString (v :: digest)))
     = List.length digest.
Proof.
  unfold fingerprint_format, count_colons.
  rewrite list_ascii_of_string_of_list_ascii, string_of_list_ascii_length.
  rewrite colonize_first. split.
  - rewrite length_app, later_groups_length, group_chars_length. reflexivity.
  - rewrite count_occ_app, later_groups_colons, group_chars_no_colon.
    reflexivity.
Qed.

Lemma groups_all (digest : bytes) :
  forallb is_group (map group digest) = true.
Proof.
  induction digest as [|v digest IH]; [reflexivity|].
  cbn [map forallb]. rewrite IH, group_is_group. reflexivity.
Qed.

Lemma hex_EncodeToString_lower (src : bytes) :
  forallb is_lower_hex (hex_EncodeToString src) = true.
Proof.
  unfold hex_EncodeToString.
  induction src as [|v src IH]; [reflexivity|].
  cbn [flat_map]. rewrite forallb_app, IH, hex_byte_lower. reflexivity.
Qed.

(** The code's loop computes the colon-joined groups of the digest. *)
Lemma x509CertFingerprint_groups (cert : Certificate) :
  x509CertFingerprint cert
  = String.concat ":" (map group (sha256.Sum256 (Raw cert))).
Proof. rewrite x509CertFingerprint_loop. apply format_groups. Qed.

(** ** The fingerprint *)

(** C2. For every byte sequence [raw] taken as a certificate's raw DER bytes,
    [x509CertFingerprint] returns the SHA-256 digest of [raw] (32 bytes),
    hex-encoded to 64 lower-case characters, with a colon inserted before
    every even-indexed position except position 0 and every character
    upper-cased; this is the same as the 32 two-character upper-case hex
    groups of the digest bytes joined by colons, it holds 31 colons, and it
    is 95 characters long. *)
Theorem x509CertFingerprint_format (raw : bytes) :
  List.length (sha256.Sum256 raw) = 32%nat
  /\ List.length (hex_EncodeToString (sha256.Sum256 raw)) = 64%nat
  /\ forallb is_lower_hex (hex_EncodeToString (sha256.Sum256 raw)) = true
  /\ x509CertFingerprint {| Raw := raw |}
     = fingerprint_format (hex_EncodeToString (sha256.Sum256 raw))
  /\ x509CertFingerprint {| Raw := raw |}
     = String.concat ":" (map group (sha256.Sum256 raw))
  /\ List.length (map group (sha256.Sum256 raw)) = 32%nat
  /\ forallb is_group (map group (sha256.Sum256 raw)) = true
  /\ count_colons (x509CertFingerprint {| Raw := raw |}) = 31%nat
  /\ String.length (x509CertFingerprint {| Raw := raw |}) = 95%nat.
Proof.
  pose proof (Sum256_length raw) as L.
  rewrite x509CertFingerprint_loop. cbn [Raw].
  split; [exact L|].
  split; [rewrite hex_EncodeToString_length, L; reflexivity|].
  split; [apply hex_EncodeToString_lower|].
  split; [reflexivity|].
  split; [apply format_groups|].
  split; [rewrite length_map; exact L|].
  split; [apply groups_all|].
  destruct (sha256.Sum256 raw) as [|v digest]; [discriminate L|].
  destruct (format_measure v digest) as [Hlen Hcol].
  rewrite Hlen, Hcol. simpl in L. split; lia.
Qed.

(** The digest of the empty input, and the fingerprint made of it. *)
Lemma empty_digest_hex :
  string_of_list_ascii (hex_EncodeToString (sha256.Sum256 []))
  = "e3b0c44298fc1c149afbf4c8996fb92427ae41e4649b934ca495991b7852b855"%string.
Proof. vm_compute. reflexivity. Qed.

Lemma empty_fingerprint_value :
  x509CertFingerprint {| Raw := [] |}
  = ("E3:B0:C4:42:98:FC:1C:14:9A:FB:F4:C8:99:6F:B9:24:"
     ++ "27:AE:41:E4:64:9B:93:4C:A4:95:99:1B:78:52:B8:55")%string.
Proof. vm_compute. reflexivity. Qed.

(** C5, as amended. For the empty byte sequence as certificate bytes the
    SHA-256 digest is [e3b0c442...7852b855] (64 hex characters, ending in
    [55]) and the fingerprint is
    [E3:B0:C4:42:98:FC:1C:14:9A:FB:F4:C8:99:6F:B9:24:27:AE:41:E4:64:9B:93:4C:A4:95:99:1B:78:52:B8:55],
    whose last group is [55]. *)
Theorem empty_fingerprint :
  string_of_list_ascii (hex_EncodeToString (sha256.Sum256 []))
  = "e3b0c44298fc1c149afbf4c8996fb92427ae41e4649b934ca495991b7852b855"%string
  /\ x509CertFingerprint {| Raw := [] |}
     = "E3:B0:C4:42:98:FC:1C:14:9A:FB:F4:C8:99:6F:B9:24:27:AE:41:E4:64:9B:93:4C:A4:95:99:1B:78:52:B8:55"%string.
Proof. split; [exact empty_digest_hex | exact empty_fingerprint_value]. Qed.

(** C5, as stated, fails: the reference string of the specification lacks the
    last hex digit, so neither is its digest the digest of the empty input nor
    its fingerprint the one the code computes. *)
Lemma empty_fingerprint_not_the_stated_reference :
  string_of_list_ascii (hex_EncodeToString (sha256.Sum256 []))
  <> "e3b0c44298fc1c149afbf4c8996fb92427ae41e4649b934ca495991b7852b85"%string
  /\ x509CertFingerprint {| Raw := [] |}
     <> "E3:B0:C4:42:98:FC:1C:14:9A:FB:F4:C8:99:6F:B9:24:27:AE:41:E4:64:9B:93:4C:A4:95:99:1B:78:52:B8:5"%string.
Proof.
  rewrite empty_digest_hex, empty_fingerprint_value.
  split; intros H; apply (f_equal String.length) in H; vm_compute in H;
    discriminate H.
Qed.

(** ** The paths through [Run] *)

Lemma select_event (w : World) :
  wakes_on caseEvent w ->
  exists d n a,
    select_Done_EventCh w = (Some caseEvent, with_wait d n a w, [Received])
    /\ S (events_available (with_wait d n a w)) = events_available w.
Proof.
  unfold wakes_on, select_Done_EventCh, result, events_available.
  destruct w as [d n a c r f sb sm k]; cbn [ctxDone eventCh arrivals coin].
  destruct d, n as [|n]; try destruct c; try destruct a as [|[] a];
    cbn [fst snd]; intros H; try discriminate H;
    do 3 eexists; (split; [reflexivity | cbn; lia]).
Qed.

Lemma select_done (w : World) :
  wakes_on caseDone w ->
  exists a,
    select_Done_EventCh w = (Some caseDone, with_wait true (eventCh w) a w, [])
    /\ events_available (with_wait true (eventCh w) a w) = events_available w.
Proof.
  unfold wakes_on, select_Done_EventCh, result, events_available.
  destruct w as [d n a c r f sb sm k]; cbn [ctxDone eventCh arrivals coin].
  destruct d, n as [|n]; try destruct c; try destruct a as [|[] a];
    cbn [fst snd]; intros H; try discriminate H;
    eexists; (split; [reflexivity | cbn; lia]).
Qed.

Lemma select_blocked (w : World) :
  result (select_Done_EventCh w) = None ->
  select_Done_EventCh w = (None, w, []).
Proof.
  unfold select_Done_EventCh, result.
  destruct w as [d n a c r f sb sm k]; cbn [ctxDone eventCh arrivals coin].
  destruct d, n as [|n]; try destruct c; try destruct a as [|[] a];
    cbn [fst snd]; intros H; try discriminate H; reflexivity.
Qed.

Section Paths.

Variable pem_Decode : bytes -> option Block * bytes.

Lemma Run_on_event (w : World) d n a :
  select_Done_EventCh w = (Some caseEvent, with_wait d n a w, [Received]) ->
  Run pem_Decode w
  = (result (Run_body pem_Decode (with_wait d n a w)),
     world (Run_body pem_Decode (with_wait d n a w)),
     Received :: effects (Run_body pem_Decode (with_wait d n a w))).
Proof.
  intros E. unfold Run, bind. rewrite E.
  destruct (Run_body pem_Decode (with_wait d n a w)) as [[o w2] e2].
  reflexivity.
Qed.

Lemma body_posture_refused (w : World) e :
  hd None (faults w) = Some e ->
  Run_body pem_Decode w
  = (Returned (Some e), with_faults (tl (faults w)) w, []).
Proof.
  intros F. destruct w as [d n a c r f sb sm k]. cbn in F.
  unfold Run_body, bind, efi_GetSecureBoot, efi_GetSetupMode, WriterModify, ret.
  cbn. destruct sb, sm; cbn; rewrite F; reflexivity.
Qed.

Lemma body_read_error (w : World) e :
  hd None (faults w) = None ->
  PCRPublicKey w = inl e ->
  Run_body pem_Decode w
  = (Returned None, posture_written w, [Committed (posture_write w); FileRead]).
Proof.
  intros F K. body_path w; rewrite F;
    wsimp; rewrite K; reflexivity.
Qed.

Lemma body_no_block (w : World) data rest :
  hd None (faults w) = None ->
  PCRPublicKey w = inr data ->
  pem_Decode data = (None, rest) ->
  Run_body pem_Decode w
  = (Returned (Some errDecodePEM), posture_written w,
     [Committed (posture_write w); FileRead]).
Proof.
  intros F K D. body_path w; rewrite F;
    wsimp; rewrite K, D; reflexivity.
Qed.

Lemma body_fingerprint_refused (w : World) data block rest e :
  hd None (faults w) = None ->
  PCRPublicKey w = inr data ->
  pem_Decode data = (Some block, rest) ->
  hd None (tl (faults w)) = Some e ->
  Run_body pem_Decode w
  = (Returned (Some e), with_faults (tl (tl (faults w))) (posture_written w),
     [Committed (posture_write w); FileRead]).
Proof.
  intros F K D F2. body_path w; rewrite F;
    wsimp; rewrite K, D; wsimp; rewrite F2; reflexivity.
Qed.

Lemma body_fingerprint (w : World) data block rest :
  hd None (faults w) = None ->
  PCRPublicKey w = inr data ->
  pem_Decode data = (Some block, rest) ->
  hd None (tl (faults w)) = None ->
  Run_body pem_Decode w
  = (Returned None,
     with_resource (Some (fingerprint_write block w))
                   (with_faults (tl (tl (faults w))) w),
     [Committed (posture_write w); FileRead;
      Committed (fingerprint_write block w)]).
Proof.
  intros F K D F2. body_path w; rewrite F;
    wsimp; rewrite K, D; wsimp; rewrite F2; reflexivity.
Qed.

Lemma accepted_0 (w : World) : accepted 0 w -> hd None (faults w) = None.
Proof. unfold accepted. destruct (faults w); auto. Qed.

Lemma accepted_1 (w : World) : accepted 1 w -> hd None (tl (faults w)) = None.
Proof. unfold accepted. destruct (faults w) as [|? []]; auto. Qed.

End Paths.

(** ** The controller *)

Section Claims.

Variable pem_Decode : bytes -> option Block * bytes.

(** Once the posture write is accepted, the body commits it, reads the key
    file, and ends with or without the fingerprint write on top. *)
Lemma body_after_posture (w : World) :
  hd None (faults w) = None ->
  exists o w' tail,
    Run_body pem_Decode w
    = (o, w', Committed (posture_write w) :: FileRead :: tail)
    /\ ((tail = [] /\ resource w' = Some (posture_write w))
        \/ (exists block,
              tail = [Committed (fingerprint_write block w)]
              /\ resource w' = Some (fingerprint_write block w)
              /\ o = Returned None)).
Proof.
  intros F.
  destruct (PCRPublicKey w) as [e|data] eqn:K.
  - rewrite (body_read_error pem_Decode w e F K).
    do 3 eexists. split; [reflexivity|]. left. split; reflexivity.
  - destruct (pem_Decode data) as [[block|] rest] eqn:D.
    + destruct (hd None (tl (faults w))) as [e|] eqn:F2.
      * rewrite (body_fingerprint_refused pem_Decode w data block rest e F K D F2).
        do 3 eexists. split; [reflexivity|]. left. split; reflexivity.
      * rewrite (body_fingerprint pem_Decode w data block rest F K D F2).
        do 3 eexists. split; [reflexivity|]. right. exists block.
        repeat split; reflexivity.
    + rewrite (body_no_block pem_Decode w data rest F K D).
      do 3 eexists. split; [reflexivity|]. left. split; reflexivity.
Qed.

(** C1. When [Run] takes the scheduling event and the runtime accepts the
    posture write, the [secureBoot] field it publishes equals
    [secureBootEnabled AND NOT setupModeActive]: the first value committed,
    every value committed, and the resource as [Run] leaves it carry that
    value, which is true exactly when secure boot is enabled and setup mode is
    not active. *)
Theorem Run_publishes_posture (w : World) :
  wakes_on caseEvent w ->
  accepted 0 w ->
  (exists s, hd_error (commits (effects (Run pem_Decode w))) = Some s
             /\ SecureBoot s = GetSecureBoot w && negb (GetSetupMode w))
  /\ (exists s, resource (world (Run pem_Decode w)) = Some s
                /\ SecureBoot s = GetSecureBoot w && negb (GetSetupMode w))
  /\ Forall (fun s => SecureBoot s = GetSecureBoot w && negb (GetSetupMode w))
            (commits (effects (Run pem_Decode w)))
  /\ (GetSecureBoot w && negb (GetSetupMode w) = true
      <-> GetSecureBoot w = true /\ GetSetupMode w = false).
Proof.
  intros E A.
  destruct (select_event w E) as (d & n & a & Sel & _).
  rewrite (Run_on_event pem_Decode w d n a Sel).
  destruct (body_after_posture (with_wait d n a w) (accepted_0 w A))
    as (o & w' & tail & B & T).
  rewrite B. unfold effects, world. cbn [fst snd commits flat_map app hd_error].
  change (posture_write (with_wait d n a w)) with (posture_write w).
  assert (P : SecureBoot (posture_write w)
              = GetSecureBoot w && negb (GetSetupMode w)) by reflexivity.
  split; [exists (posture_write w); split; [reflexivity | exact P]|].
  split; [|split].
  - destruct T as [[_ R] | (block & _ & R & _)]; rewrite R; eexists;
      (split; [reflexivity | exact P]).
  - constructor; [exact P|].
    destruct T as [[-> _] | (block & -> & _)]; cbn; constructor;
      [exact P | constructor].
  - destruct (GetSecureBoot w), (GetSetupMode w); cbn; intuition congruence.
Qed.

(** C3. When [Run] has taken the event and published the posture, and the
    key file is read but holds no PEM block, [Run] returns the error
    "failed to decode PEM block for PCR public key"; the posture write is the
    only value committed, it precedes the read of the file, and the
    fingerprint field stays what it was. *)
Theorem Run_undecodable_PEM (w : World) (data rest : bytes) :
  wakes_on caseEvent w ->
  accepted 0 w ->
  PCRPublicKey w = inr data ->
  pem_Decode data = (None, rest) ->
  result (Run pem_Decode w)
  = Returned (Some (Errorf "failed to decode PEM block for PCR public key"))
  /\ String.prefix "failed to decode PEM block"
                   "failed to decode PEM block for PCR public key" = true
  /\ effects (Run pem_Decode w) = [Received; Committed (posture_write w); FileRead]
  /\ commits (effects (Run pem_Decode w)) = [posture_write w]
  /\ resource (world (Run pem_Decode w)) = Some (posture_write w)
  /\ PCRSigningKeyFingerprint (posture_write w)
     = PCRSigningKeyFingerprint (current (resource w)).
Proof.
  intros E A K D.
  destruct (select_event w E) as (d & n & a & Sel & _).
  rewrite (Run_on_event pem_Decode w d n a Sel).
  rewrite (body_no_block pem_Decode (with_wait d n a w) data rest
             (accepted_0 w A) K D).
  repeat split; reflexivity.
Qed.

(** C4. When [Run] has taken the event and published the posture, and reading
    the key file fails with any error (the file is not found, or any other
    failure), [Run] makes no fingerprint write, leaves an empty
    [pcrSigningKeyFingerprint] empty, and returns [nil]. *)
Theorem Run_key_file_unreadable (w : World) (e : error) :
  wakes_on caseEvent w ->
  accepted 0 w ->
  PCRPublicKey w = inl e ->
  PCRSigningKeyFingerprint (current (resource w)) = EmptyString ->
  result (Run pem_Decode w) = Returned None
  /\ effects (Run pem_Decode w) = [Received; Committed (posture_write w); FileRead]
  /\ commits (effects (Run pem_Decode w)) = [posture_write w]
  /\ (exists s, resource (world (Run pem_Decode w)) = Some s
                /\ PCRSigningKeyFingerprint s = EmptyString).
Proof.
  intros E A K F.
  destruct (select_event w E) as (d & n & a & Sel & _).
  rewrite (Run_on_event pem_Decode w d n a Sel).
  rewrite (body_read_error pem_Decode (with_wait d n a w) e (accepted_0 w A) K).
  split; [reflexivity|]. split; [reflexivity|]. split; [reflexivity|].
  exists (posture_write w). split; [reflexivity | exact F].
Qed.

(** C6. When the cancellation is seen before any scheduling event has been
    delivered, [Run] returns [nil] and does nothing: no event is taken, no
    file is read, no resource is written, and the resource is as before. *)
Theorem Run_cancelled_first (w : World) :
  cancelled_first w ->
  result (Run pem_Decode w) = Returned None
  /\ effects (Run pem_Decode w) = []
  /\ commits (effects (Run pem_Decode w)) = []
  /\ resource (world (Run pem_Decode w)) = resource w.
Proof.
  intros [N C].
  assert (D : wakes_on caseDone w).
  { unfold wakes_on, select_Done_EventCh, result.
    destruct w as [d n a c r f sb sm k]. cbn in N, C |- *. subst n.
    destruct C as [-> | C]; [reflexivity|].
    destruct d; [reflexivity|].
    destruct a as [|[] a]; try discriminate C. reflexivity. }
  destruct (select_done w D) as (a & Sel & _).
  unfold Run, bind. rewrite Sel. repeat split; reflexivity.
Qed.

(** C8. The mutation of the fingerprint write sets
    [pcrSigningKeyFingerprint] and nothing else: on every prior state [s] it
    returns [s] with the fingerprint replaced, without error, so [secureBoot]
    is as in [s]; and through the modify-or-create primitive, in every world,
    the resource is afterwards either untouched or the prior value (the
    default one, if there was none) with only the fingerprint replaced. *)
Theorem fingerprint_write_frame (cert : Certificate) (s : SecurityStateSpec)
    (w : World) :
  fingerprint_fn cert s
  = ({| SecureBoot := SecureBoot s;
        PCRSigningKeyFingerprint := x509CertFingerprint cert |}, None)
  /\ SecureBoot (fst (fingerprint_fn cert s)) = SecureBoot s
  /\ (resource (world (WriterModify NewSecurityStateSpec (fingerprint_fn cert) w))
      = resource w
      \/ resource (world (WriterModify NewSecurityStateSpec (fingerprint_fn cert) w))
         = Some {| SecureBoot := SecureBoot (current (resource w));
                   PCRSigningKeyFingerprint := x509CertFingerprint cert |})
  /\ SecureBoot
       (current (resource
          (world (WriterModify NewSecurityStateSpec (fingerprint_fn cert) w))))
     = SecureBoot (current (resource w)).
Proof.
  split; [reflexivity|]. split; [reflexivity|].
  unfold WriterModify, world, fingerprint_fn.
  destruct (hd None (faults w)) as [e|]; cbn [fst snd].
  - split; [left|]; reflexivity.
  - split; [right|]; reflexivity.
Qed.

(** C9. The posture mutation is idempotent: applied twice with one posture
    value it gives what one application gives, on every state; and a second
    call of the modify-or-create primitive with that value, on a world whose
    resource a first call produced, leaves the resource as it is, whether the
    runtime accepts the call (it then commits the same value again) or not. *)
Theorem posture_write_idempotent (v : bool) (s : SecurityStateSpec) (w : World) :
  fst (posture_fn v (fst (posture_fn v s))) = fst (posture_fn v s)
  /\ snd (posture_fn v s) = None
  /\ resource
       (world (WriterModify NewSecurityStateSpec (posture_fn v)
                 (with_resource (Some (fst (posture_fn v s))) w)))
     = Some (fst (posture_fn v s))
  /\ Forall (fun s' => s' = fst (posture_fn v s))
       (commits
          (effects (WriterModify NewSecurityStateSpec (posture_fn v)
                      (with_resource (Some (fst (posture_fn v s))) w)))).
Proof.
  split; [reflexivity|]. split; [reflexivity|].
  unfold WriterModify, world, effects, posture_fn.
  destruct w as [d n a c r f sb sm k]; wsimp.
  destruct (hd None f) as [e|]; cbn [fst snd commits flat_map app].
  - split; [reflexivity | constructor].
  - split; [reflexivity | constructor; [reflexivity | constructor]].
Qed.

(** C10. When the key file decodes to a PEM block, whatever the block's type,
    headers and bytes and whatever follows it in the file, and the runtime
    accepts both writes, [Run] returns [nil] and the resource holds the
    fingerprint of the block's bytes: the colon-joined upper-case hex groups
    of the SHA-256 digest of exactly those bytes.  Nothing inspects the bytes
    as DER or as a certificate. *)
Theorem Run_publishes_fingerprint (w : World) (data rest : bytes) (block : Block) :
  wakes_on caseEvent w ->
  accepted 0 w ->
  accepted 1 w ->
  PCRPublicKey w = inr data ->
  pem_Decode data = (Some block, rest) ->
  result (Run pem_Decode w) = Returned None
  /\ effects (Run pem_Decode w)
     = [Received; Committed (posture_write w); FileRead;
        Committed (fingerprint_write block w)]
  /\ resource (world (Run pem_Decode w))
     = Some {| SecureBoot := GetSecureBoot w && negb (GetSetupMode w);
               PCRSigningKeyFingerprint :=
                 x509CertFingerprint {| Raw := Bytes block |} |}
  /\ x509CertFingerprint {| Raw := Bytes block |}
     = String.concat ":" (map group (sha256.Sum256 (Bytes block))).
Proof.
  intros E A0 A1 K D.
  destruct (select_event w E) as (d & n & a & Sel & _).
  rewrite (Run_on_event pem_Decode w d n a Sel).
  rewrite (body_fingerprint pem_Decode (with_wait d n a w) data block rest
             (accepted_0 w A0) K D (accepted_1 w A1)).
  split; [reflexivity|]. split; [reflexivity|]. split; [reflexivity|].
  apply x509CertFingerprint_groups.
Qed.

(** What the body does on every world: it takes no event, leaves the waiting
    signals alone, commits the posture write and then at most the fingerprint
    write, and returns; with an error only when the runtime refused a write
    or the key file held no PEM block. *)
Lemma body_summary (w : World) :
  exists o w' es,
    Run_body pem_Decode w = (Returned o, w', es)
    /\ ctxDone w' = ctxDone w /\ eventCh w' = eventCh w
    /\ arrivals w' = arrivals w
    /\ receives es = 0%nat
    /\ (commits es = []
        \/ commits es = [posture_write w]
        \/ exists block,
             commits es = [posture_write w; fingerprint_write block w])
    /\ (o = None
        \/ o = Some errDecodePEM
        \/ exists e, In (Some e) (faults w) /\ o = Some e).
Proof.
  destruct (hd None (faults w)) as [e|] eqn:F.
  { rewrite (body_posture_refused pem_Decode w e F).
    do 3 eexists. split; [reflexivity|]. repeat (split; [reflexivity|]).
    split; [left; reflexivity|]. right; right. exists e. split; [|reflexivity].
    destruct (faults w); [discriminate F|]. cbn in F. subst. now left. }
  destruct (PCRPublicKey w) as [e|data] eqn:K.
  { rewrite (body_read_error pem_Decode w e F K).
    do 3 eexists. split; [reflexivity|]. repeat (split; [reflexivity|]).
    split; [right; left; reflexivity | left; reflexivity]. }
  destruct (pem_Decode data) as [[block|] rest] eqn:D.
  2:{ rewrite (body_no_block pem_Decode w data rest F K D).
      do 3 eexists. split; [reflexivity|]. repeat (split; [reflexivity|]).
      split; [right; left; reflexivity | right; left; reflexivity]. }
  destruct (hd None (tl (faults w))) as [e|] eqn:F2.
  - rewrite (body_fingerprint_refused pem_Decode w data block rest e F K D F2).
    do 3 eexists. split; [reflexivity|]. repeat (split; [reflexivity|]).
    split; [right; left; reflexivity|]. right; right. exists e.
    split; [|reflexivity].
    destruct (faults w) as [|x [|y l]]; try discriminate F2.
    cbn in F2. subst. right; now left.
  - rewrite (body_fingerprint pem_Decode w data block rest F K D F2).
    do 3 eexists. split; [reflexivity|]. repeat (split; [reflexivity|]).
    split; [right; right; exists block; reflexivity | left; reflexivity].
Qed.

(** The body reads neither the context nor the event channel: what it returns
    and what it does are the same whatever is waiting there. *)
Lemma body_ignores_signals (w : World) d n a :
  result (Run_body pem_Decode (with_wait d n a w)) = result (Run_body pem_Decode w)
  /\ effects (Run_body pem_Decode (with_wait d n a w))
     = effects (Run_body pem_Decode w).
Proof.
  destruct (hd None (faults w)) as [e|] eqn:F.
  { rewrite (body_posture_refused pem_Decode w e F).
    rewrite (body_posture_refused pem_Decode (with_wait d n a w) e F).
    split; reflexivity. }
  destruct (PCRPublicKey w) as [e|data] eqn:K.
  { rewrite (body_read_error pem_Decode w e F K).
    rewrite (body_read_error pem_Decode (with_wait d n a w) e F K).
    split; reflexivity. }
  destruct (pem_Decode data) as [[block|] rest] eqn:D.
  2:{ rewrite (body_no_block pem_Decode w data rest F K D).
      rewrite (body_no_block pem_Decode (with_wait d n a w) data rest F K D).
      split; reflexivity. }
  destruct (hd None (tl (faults w))) as [e|] eqn:F2.
  - rewrite (body_fingerprint_refused pem_Decode w data block rest e F K D F2).
    rewrite (body_fingerprint_refused pem_Decode (with_wait d n a w)
               data block rest e F K D F2).
    split; reflexivity.
  - rewrite (body_fingerprint pem_Decode w data block rest F K D F2).
    rewrite (body_fingerprint pem_Decode (with_wait d n a w)
               data block rest F K D F2).
    split; reflexivity.
Qed.

(** C7, as amended. [Run] is single-shot: in every execution it takes at
    most one scheduling event and leaves every other one waiting; it commits
    nothing, or the boot posture, or the boot posture and then the
    fingerprint, so at most two writes; it stays blocked only when its
    [select] is never released, and otherwise returns: [nil], or the PEM
    decoding error, or an error with which the runtime refused a write.  Once
    past the [select], what it returns and does is the same however many
    further scheduling signals are delivered. *)
Theorem Run_single_shot (w : World) (k : nat) (more : list signal) :
  (receives (effects (Run pem_Decode w)) <= 1)%nat
  /\ (events_available (world (Run pem_Decode w))
      + receives (effects (Run pem_Decode w)))%nat = events_available w
  /\ (commits (effects (Run pem_Decode w)) = []
      \/ commits (effects (Run pem_Decode w)) = [posture_write w]
      \/ exists block,
           commits (effects (Run pem_Decode w))
           = [posture_write w; fingerprint_write block w])
  /\ (List.length (commits (effects (Run pem_Decode w))) <= 2)%nat
  /\ ((result (select_Done_EventCh w) = None
       /\ result (Run pem_Decode w) = Blocked)
      \/ result (Run pem_Decode w) = Returned None
      \/ result (Run pem_Decode w) = Returned (Some errDecodePEM)
      \/ exists e, In (Some e) (faults w)
                   /\ result (Run pem_Decode w) = Returned (Some e))
  /\ result (Run_body pem_Decode (deliver_more k more w))
     = result (Run_body pem_Decode w)
  /\ effects (Run_body pem_Decode (deliver_more k more w))
     = effects (Run_body pem_Decode w).
Proof.
  assert (Main :
    (receives (effects (Run pem_Decode w)) <= 1)%nat
    /\ (events_available (world (Run pem_Decode w))
        + receives (effects (Run pem_Decode w)))%nat = events_available w
    /\ (commits (effects (Run pem_Decode w)) = []
        \/ commits (effects (Run pem_Decode w)) = [posture_write w]
        \/ exists block,
             commits (effects (Run pem_Decode w))
             = [posture_write w; fingerprint_write block w])
    /\ ((result (select_Done_EventCh w) = None
         /\ result (Run pem_Decode w) = Blocked)
        \/ result (Run pem_Decode w) = Returned None
        \/ result (Run pem_Decode w) = Returned (Some errDecodePEM)
        \/ exists e, In (Some e) (faults w)
                     /\ result (Run pem_Decode w) = Returned (Some e))).
  { destruct (result (select_Done_EventCh w)) as [[|]|] eqn:E.
    - destruct (select_done w E) as (a & Sel & Ev).
      unfold Run, bind. rewrite Sel. unfold effects, world, result.
      cbn [fst snd ret app receives filter List.length commits flat_map].
      rewrite Ev. split; [lia|]. split; [lia|]. split; [now left|].
      right; left; reflexivity.
    - destruct (select_event w E) as (d & n & a & Sel & Ev).
      rewrite (Run_on_event pem_Decode w d n a Sel).
      destruct (body_summary (with_wait d n a w))
        as (o & w' & es & B & Hd & Hn & Ha & R & C & O).
      rewrite B. unfold effects, world, result. cbn [fst snd].
      change (receives (Received :: es)) with (S (receives es)).
      change (commits (Received :: es)) with (commits es).
      rewrite R. split; [lia|]. split; [|split].
      + rewrite <- Ev. unfold events_available. rewrite Hn, Ha. lia.
      + exact C.
      + right. destruct O as [-> | [-> | (e & I & ->)]];
          [left | right; left | right; right; exists e; split]; auto.
    - pose proof (select_blocked w E) as Sel.
      unfold Run, bind. rewrite Sel.
      unfold effects, world, result.
      cbn [fst snd ret app receives filter List.length commits flat_map].
      split; [lia|]. split; [lia|]. split; [now left|].
      left. split; reflexivity. }
  destruct Main as (R & Ev & C & O).
  split; [exact R|]. split; [exact Ev|]. split; [exact C|].
  split.
  { destruct C as [-> | [-> | (block & ->)]]; cbn; lia. }
  split; [exact O|].
  apply body_ignores_signals.
Qed.

End Claims.

(** ** The claims at sample inputs *)

(** A whole execution, computed: the sample key file on a freshly booted
    machine. *)
Example Run_sample_PEM :
  Run sample_Decode (booted (inr sample_PEM))
  = (Returned None,
     mkWorld false 0 [] false
       (Some {| SecureBoot := true;
                PCRSigningKeyFingerprint :=
                  "AE:4B:32:80:E5:6E:2F:AF:83:F4:14:A6:E3:DA:BE:9D:5F:BE:18:97:65:44:C0:5F:ED:12:1A:CC:B8:5B:53:FC" |})
       [] true false (inr sample_PEM),
     [Received;
      Committed {| SecureBoot := true; PCRSigningKeyFingerprint := "" |};
      FileRead;
      Committed {| SecureBoot := true;
                   PCRSigningKeyFingerprint :=
                     "AE:4B:32:80:E5:6E:2F:AF:83:F4:14:A6:E3:DA:BE:9D:5F:BE:18:97:65:44:C0:5F:ED:12:1A:CC:B8:5B:53:FC" |}]).
Proof. vm_compute. reflexivity. Qed.

(** When the context is done and an event waits as well, [select] may go
    either way: the coin decides whether anything is written. *)
Example Run_both_ready :
  commits (effects (Run sample_Decode
                      (mkWorld true 1 [] true None [] true false (inl (PathError ENOENT)))))
  = []
  /\ commits (effects (Run sample_Decode
                         (mkWorld true 1 [] false None [] true false (inl (PathError ENOENT)))))
     = [{| SecureBoot := true; PCRSigningKeyFingerprint := "" |}].
Proof. split; reflexivity. Qed.

Lemma Run_publishes_posture_witness :
  wakes_on caseEvent (booted (inl (PathError ENOENT)))
  /\ accepted 0 (booted (inl (PathError ENOENT)))
  /\ exists s,
       resource (world (Run sample_Decode (booted (inl (PathError ENOENT)))))
       = Some s
       /\ SecureBoot s = true && negb false.
Proof.
  assert (E : wakes_on caseEvent (booted (inl (PathError ENOENT))))
    by reflexivity.
  assert (A : accepted 0 (booted (inl (PathError ENOENT)))) by reflexivity.
  split; [exact E|]. split; [exact A|].
  exact (proj1 (proj2 (Run_publishes_posture sample_Decode _ E A))).
Defined.

Lemma Run_undecodable_PEM_witness :
  PCRPublicKey (booted (inr no_PEM)) = inr no_PEM
  /\ sample_Decode no_PEM = (None, no_PEM)
  /\ result (Run sample_Decode (booted (inr no_PEM)))
     = Returned (Some (Errorf "failed to decode PEM block for PCR public key")).
Proof.
  assert (E : wakes_on caseEvent (booted (inr no_PEM))) by reflexivity.
  assert (A : accepted 0 (booted (inr no_PEM))) by reflexivity.
  assert (K : PCRPublicKey (booted (inr no_PEM)) = inr no_PEM) by reflexivity.
  assert (D : sample_Decode no_PEM = (None, no_PEM)) by reflexivity.
  split; [exact K|]. split; [exact D|].
  exact (proj1 (Run_undecodable_PEM sample_Decode _ no_PEM no_PEM E A K D)).
Defined.

Lemma Run_key_file_unreadable_witness :
  PCRPublicKey (booted (inl (PathError EACCES))) = inl (PathError EACCES)
  /\ result (Run sample_Decode (booted (inl (PathError EACCES)))) = Returned None
  /\ commits (effects (Run sample_Decode (booted (inl (PathError EACCES)))))
     = [posture_write (booted (inl (PathError EACCES)))].
Proof.
  assert (E : wakes_on caseEvent (booted (inl (PathError EACCES))))
    by reflexivity.
  assert (A : accepted 0 (booted (inl (PathError EACCES)))) by reflexivity.
  assert (K : PCRPublicKey (booted (inl (PathError EACCES)))
              = inl (PathError EACCES)) by reflexivity.
  assert (F : PCRSigningKeyFingerprint
                (current (resource (booted (inl (PathError EACCES)))))
              = EmptyString) by reflexivity.
  pose proof (Run_key_file_unreadable sample_Decode _ (PathError EACCES) E A K F)
    as (R & _ & C & _).
  split; [exact K|]. split; [exact R | exact C].
Defined.

Lemma Run_cancelled_first_witness :
  cancelled_first (mkWorld false 0 [Cancel; Event] false None [] true false
                           (inr sample_PEM))
  /\ effects (Run sample_Decode
                (mkWorld false 0 [Cancel; Event] false None [] true false
                         (inr sample_PEM))) = [].
Proof.
  assert (C : cancelled_first
                (mkWorld false 0 [Cancel; Event] false None [] true false
                         (inr sample_PEM)))
    by (split; [reflexivity | right; reflexivity]).
  split; [exact C|].
  exact (proj1 (proj2 (Run_cancelled_first sample_Decode _ C))).
Defined.

Lemma Run_publishes_fingerprint_witness :
  sample_Decode sample_PEM
  = (Some sample_block, list_ascii_of_string "trailing text")
  /\ result (Run sample_Decode (booted (inr sample_PEM))) = Returned None
  /\ resource (world (Run sample_Decode (booted (inr sample_PEM))))
     = Some {| SecureBoot := true;
               PCRSigningKeyFingerprint :=
                 x509CertFingerprint {| Raw := Bytes sample_block |} |}.
Proof.
  assert (E : wakes_on caseEvent (booted (inr sample_PEM))) by reflexivity.
  assert (A0 : accepted 0 (booted (inr sample_PEM))) by reflexivity.
  assert (A1 : accepted 1 (booted (inr sample_PEM))) by reflexivity.
  assert (K : PCRPublicKey (booted (inr sample_PEM)) = inr sample_PEM)
    by reflexivity.
  assert (D : sample_Decode sample_PEM
              = (Some sample_block, list_ascii_of_string "trailing text"))
    by reflexivity.
  pose proof (Run_publishes_fingerprint sample_Decode _ sample_PEM _ _
                E A0 A1 K D) as (R & _ & S & _).
  split; [exact D|]. split; [exact R | exact S].
Defined.

(** C7, as stated, fails: an execution need not return successfully.  On a
    freshly booted machine whose key file holds no PEM block, [Run] returns
    the decoding error, after one write. *)
Lemma Run_returns_an_error :
  result (Run sample_Decode (booted (inr no_PEM)))
  = Returned (Some errDecodePEM)
  /\ result (Run sample_Decode (booted (inr no_PEM))) <> Returned None
  /\ List.length (commits (effects (Run sample_Decode (booted (inr no_PEM)))))
     = 1%nat.
Proof.
  split; [reflexivity|]. split; [|reflexivity].
  intros H. vm_compute in H. discriminate H.
Qed.

(** ** Further properties of the fingerprint *)

Lemma group_chars_pair (v : byte) :
  exists a b, group_chars v = [a; b] /\ unhex_pair a b = Some v.
Proof. do 2 eexists. split; [reflexivity | each_byte v]. Qed.

Lemma parse_groups_later (rest : bytes) : forall v : byte,
  parse_groups
    (group_chars v ++ flat_map (fun v => ":"%char :: group_chars v) rest)
  = Some (v :: rest).
Proof.
  induction rest as [|v' rest IH]; intros v;
    destruct (group_chars_pair v) as (a & b & -> & U).
  - cbn [flat_map app parse_groups]. rewrite U. reflexivity.
  - cbn [flat_map app parse_groups]. rewrite U.
    change (Ascii.eqb ":"%char ":"%char) with true. cbv iota.
    rewrite IH. reflexivity.
Qed.

Lemma x509CertFingerprint_length (cert : Certificate) :
  String.length (x509CertFingerprint cert) = 95%nat.
Proof.
  rewrite x509CertFingerprint_loop.
  pose proof (Sum256_length (Raw cert)) as L.
  destruct (sha256.Sum256 (Raw cert)) as [|v digest]; [discriminate L|].
  rewrite (proj1 (format_measure v digest)). simpl in L. lia.
Qed.

(** X6. The fingerprint can be read back: parsing its colon-separated
    upper-case hex groups gives the 32 bytes of the SHA-256 digest it was made
    of, so two certificates have the same fingerprint exactly when their raw
    bytes have the same digest. *)
Theorem x509CertFingerprint_parse (c1 c2 : Certificate) :
  parse_fingerprint (x509CertFingerprint c1) = Some (sha256.Sum256 (Raw c1))
  /\ (x509CertFingerprint c1 = x509CertFingerprint c2
      <-> sha256.Sum256 (Raw c1) = sha256.Sum256 (Raw c2)).
Proof.
  assert (P : forall c,
    parse_fingerprint (x509CertFingerprint c) = Some (sha256.Sum256 (Raw c))).
  { intros c. rewrite x509CertFingerprint_loop.
    unfold parse_fingerprint, fingerprint_format.
    rewrite list_ascii_of_string_of_list_ascii.
    pose proof (Sum256_length (Raw c)) as L.
    destruct (sha256.Sum256 (Raw c)) as [|v digest]; [discriminate L|].
    rewrite colonize_first. apply parse_groups_later. }
  split; [apply P|]. split; intros H.
  - pose proof (P c1) as P1. rewrite H, P in P1.
    generalize dependent (sha256.Sum256 (Raw c1)).
    generalize dependent (sha256.Sum256 (Raw c2)).
    intros d2 d1 E. injection E as ->. reflexivity.
  - rewrite !x509CertFingerprint_loop, H. reflexivity.
Qed.

(** X7. Hashing a certificate's raw bytes never reaches the panic of
    [checkSum]: once the padding is written the block buffer of the digest
    is empty, whatever the bytes are. *)
Theorem fingerprint_hash_buffer_empty (cert : Certificate) :
  sha256.nx
    (sha256.digest_Write (sha256.digest_Write sha256.Reset (Raw cert))
       (sha256.padding
          (sha256.len (sha256.digest_Write sha256.Reset (Raw cert)))))
  = 0%nat
  /\ List.length (sha256.Sum256 (Raw cert)) = sha256.Size.
Proof. split; [apply Sum256_buffer_empty | apply Sum256_length]. Qed.

(** ** Further properties of the controller *)

Lemma refused_0 (w : World) e : refused 0 e w -> hd None (faults w) = Some e.
Proof. unfold refused. destruct (faults w); auto. Qed.

Lemma refused_1 (w : World) e :
  refused 1 e w -> hd None (tl (faults w)) = Some e.
Proof. unfold refused. destruct (faults w) as [|? []]; auto. Qed.

Section Further.

Variable pem_Decode : bytes -> option Block * bytes.

(** The three ways through the body: the posture write is refused; the
    posture is committed and the file read, with no fingerprint write; the
    fingerprint of a decoded block is committed as well. *)
Lemma body_shape (w : World) :
  (effects (Run_body pem_Decode w) = []
   /\ (exists e, result (Run_body pem_Decode w) = Returned (Some e))
   /\ resource (world (Run_body pem_Decode w)) = resource w)
  \/ (effects (Run_body pem_Decode w) = [Committed (posture_write w); FileRead]
      /\ (exists o, result (Run_body pem_Decode w) = Returned o)
      /\ resource (world (Run_body pem_Decode w)) = Some (posture_write w))
  \/ (exists data block rest,
        PCRPublicKey w = inr data
        /\ pem_Decode data = (Some block, rest)
        /\ effects (Run_body pem_Decode w)
           = [Committed (posture_write w); FileRead;
              Committed (fingerprint_write block w)]
        /\ result (Run_body pem_Decode w) = Returned None
        /\ resource (world (Run_body pem_Decode w))
           = Some (fingerprint_write block w)).
Proof.
  destruct (hd None (faults w)) as [e|] eqn:F.
  { rewrite (body_posture_refused pem_Decode w e F). left.
    split; [reflexivity|]. split; [exists e|]; reflexivity. }
  destruct (PCRPublicKey w) as [e|data] eqn:K.
  { rewrite (body_read_error pem_Decode w e F K). right; left.
    split; [reflexivity|]. split; [eexists|]; reflexivity. }
  destruct (pem_Decode data) as [[block|] rest] eqn:D.
  2:{ rewrite (body_no_block pem_Decode w data rest F K D). right; left.
      split; [reflexivity|]. split; [eexists|]; reflexivity. }
  destruct (hd None (tl (faults w))) as [e|] eqn:F2.
  - rewrite (body_fingerprint_refused pem_Decode w data block rest e F K D F2).
    right; left. split; [reflexivity|]. split; [eexists|]; reflexivity.
  - rewrite (body_fingerprint pem_Decode w data block rest F K D F2).
    right; right. exists data, block, rest.
    split; [reflexivity|]. split; [exact D|].
    split; [reflexivity|]. split; reflexivity.
Qed.

(** X1. When the runtime refuses the posture write, [Run] returns the
    runtime's error at once: the event is taken, nothing is committed, the key
    file is not read, and the resource is as it was. *)
Theorem Run_posture_write_refused (w : World) (e : error) :
  wakes_on caseEvent w ->
  refused 0 e w ->
  result (Run pem_Decode w) = Returned (Some e)
  /\ effects (Run pem_Decode w) = [Received]
  /\ resource (world (Run pem_Decode w)) = resource w.
Proof.
  intros E F.
  destruct (select_event w E) as (d & n & a & Sel & _).
  rewrite (Run_on_event pem_Decode w d n a Sel).
  rewrite (body_posture_refused pem_Decode (with_wait d n a w) e (refused_0 w e F)).
  split; [reflexivity|]. split; reflexivity.
Qed.

(** X2. When the key file decodes to a block but the runtime refuses the
    fingerprint write, [Run] returns the runtime's error; the posture stays
    published, no fingerprint is committed, and the fingerprint field is what
    it was before the run. *)
Theorem Run_fingerprint_write_refused (w : World) (data rest : bytes)
    (block : Block) (e : error) :
  wakes_on caseEvent w ->
  accepted 0 w ->
  refused 1 e w ->
  PCRPublicKey w = inr data ->
  pem_Decode data = (Some block, rest) ->
  result (Run pem_Decode w) = Returned (Some e)
  /\ effects (Run pem_Decode w)
     = [Received; Committed (posture_write w); FileRead]
  /\ resource (world (Run pem_Decode w))
     = Some {| SecureBoot := GetSecureBoot w && negb (GetSetupMode w);
               PCRSigningKeyFingerprint := fingerprint_of (resource w) |}.
Proof.
  intros E A F K D.
  destruct (select_event w E) as (d & n & a & Sel & _).
  rewrite (Run_on_event pem_Decode w d n a Sel).
  rewrite (body_fingerprint_refused pem_Decode (with_wait d n a w)
             data block rest e (accepted_0 w A) K D (refused_1 w e F)).
  split; [reflexivity|]. split; reflexivity.
Qed.

(** X3. The effects of every execution are one of four sequences: nothing
    (with [Run] blocked or returning [nil]); the event alone, with an error
    returned; the event, the posture write and the read of the key file; or
    these three and then the fingerprint write, with [nil] returned.  So the
    key file is never read before the posture is committed, nothing is
    written without the event, and an error is never returned after a
    fingerprint write. *)
Theorem Run_effects_shape (w : World) :
  (effects (Run pem_Decode w) = []
   /\ (result (Run pem_Decode w) = Blocked
       \/ result (Run pem_Decode w) = Returned None)
   /\ resource (world (Run pem_Decode w)) = resource w)
  \/ (effects (Run pem_Decode w) = [Received]
      /\ (exists e, result (Run pem_Decode w) = Returned (Some e))
      /\ resource (world (Run pem_Decode w)) = resource w)
  \/ (effects (Run pem_Decode w)
      = [Received; Committed (posture_write w); FileRead]
      /\ (exists o, result (Run pem_Decode w) = Returned o)
      /\ resource (world (Run pem_Decode w)) = Some (posture_write w))
  \/ (exists block,
        effects (Run pem_Decode w)
        = [Received; Committed (posture_write w); FileRead;
           Committed (fingerprint_write block w)]
        /\ result (Run pem_Decode w) = Returned None
        /\ resource (world (Run pem_Decode w))
           = Some (fingerprint_write block w)).
Proof.
  destruct (result (select_Done_EventCh w)) as [[|]|] eqn:E.
  - destruct (select_done w E) as (a & Sel & _).
    unfold Run, bind. rewrite Sel. left.
    split; [reflexivity|]. split; [right|]; reflexivity.
  - destruct (select_event w E) as (d & n & a & Sel & _).
    rewrite (Run_on_event pem_Decode w d n a Sel).
    destruct (body_shape (with_wait d n a w))
      as [(Ef & R & Rs) | [(Ef & R & Rs) | (data & block & rest & _ & _ & Ef & R & Rs)]];
      unfold effects, result, world in *; cbn [fst snd] in *; rewrite Ef, Rs.
    + right; left. split; [reflexivity|]. split; [exact R | reflexivity].
    + right; right; left. split; [reflexivity|]. split; [exact R | reflexivity].
    + right; right; right. exists block.
      split; [reflexivity|]. split; [exact R | reflexivity].
  - pose proof (select_blocked w E) as Sel.
    unfold Run, bind. rewrite Sel. left.
    split; [reflexivity|]. split; [left|]; reflexivity.
Qed.

(** X4. [Run] changes the stored fingerprint in one way only: it replaces it
    by the 95-character fingerprint of the block decoded from the key file.
    In every other execution (cancelled, a write refused, the file unreadable
    or without a PEM block) the fingerprint a reader finds is what it was
    before; a fingerprint stored earlier is never cleared. *)
Theorem Run_fingerprint_provenance (w : World) :
  fingerprint_of (resource (world (Run pem_Decode w)))
  = fingerprint_of (resource w)
  \/ (exists data block rest,
        PCRPublicKey w = inr data
        /\ pem_Decode data = (Some block, rest)
        /\ fingerprint_of (resource (world (Run pem_Decode w)))
           = x509CertFingerprint {| Raw := Bytes block |}
        /\ String.length (fingerprint_of (resource (world (Run pem_Decode w))))
           = 95%nat).
Proof.
  destruct (result (select_Done_EventCh w)) as [[|]|] eqn:E.
  - destruct (select_done w E) as (a & Sel & _).
    unfold Run, bind. rewrite Sel. left. reflexivity.
  - destruct (select_event w E) as (d & n & a & Sel & _).
    rewrite (Run_on_event pem_Decode w d n a Sel).
    destruct (body_shape (with_wait d n a w))
      as [(_ & _ & Rs) | [(_ & _ & Rs) | (data & block & rest & K & D & _ & _ & Rs)]];
      unfold world in *; cbn [fst snd] in *; rewrite Rs.
    + left. reflexivity.
    + left. reflexivity.
    + right. exists data, block, rest.
      split; [exact K|]. split; [exact D|].
      split; [reflexivity|].
      apply (x509CertFingerprint_length {| Raw := Bytes block |}).
  - pose proof (select_blocked w E) as Sel.
    unfold Run, bind. rewrite Sel. left. reflexivity.
Qed.

(** X5. Starting the controller again changes nothing: when a run whose
    writes were accepted is followed by a second run on the same machine
    (same firmware state, same key file, the resource as the first run left
    it), the second run returns what the first returned and leaves the
    resource exactly as the first left it. *)
Theorem Run_restart_idempotent (w1 w2 : World) :
  wakes_on caseEvent w1 -> accepted 0 w1 -> accepted 1 w1 ->
  restarted w1 (world (Run pem_Decode w1)) w2 ->
  wakes_on caseEvent w2 -> accepted 0 w2 -> accepted 1 w2 ->
  result (Run pem_Decode w2) = result (Run pem_Decode w1)
  /\ resource (world (Run pem_Decode w2))
     = resource (world (Run pem_Decode w1)).
Proof.
  intros E1 A1 B1 (Hsb & Hsm & Hk & Hr) E2 A2 B2.
  destruct (select_event w1 E1) as (d1 & n1 & a1 & Sel1 & _).
  destruct (select_event w2 E2) as (d2 & n2 & a2 & Sel2 & _).
  rewrite (Run_on_event pem_Decode w1 d1 n1 a1 Sel1) in Hr |- *.
  rewrite (Run_on_event pem_Decode w2 d2 n2 a2 Sel2).
  assert (I : forall s, resource w2 = Some s -> SecureBoot s = posture w1 ->
              posture_write (with_wait d2 n2 a2 w2) = s).
  { intros [sb fp] R S. unfold posture_write, posture in *.
    cbn [resource with_wait GetSecureBoot GetSetupMode].
    rewrite R, Hsb, Hsm. cbn in S |- *. subst sb. reflexivity. }
  destruct (PCRPublicKey w1) as [e|data] eqn:K1.
  - rewrite (body_read_error pem_Decode (with_wait d1 n1 a1 w1) e
               (accepted_0 w1 A1) K1) in Hr |- *.
    rewrite (body_read_error pem_Decode (with_wait d2 n2 a2 w2) e
               (accepted_0 w2 A2) Hk).
    unfold world, result in *. cbn [fst snd posture_written resource with_resource] in *.
    split; [reflexivity|]. f_equal. apply I; [exact Hr | reflexivity].
  - destruct (pem_Decode data) as [[block|] rest] eqn:D.
    + rewrite (body_fingerprint pem_Decode (with_wait d1 n1 a1 w1) data block rest
                 (accepted_0 w1 A1) K1 D (accepted_1 w1 B1)) in Hr |- *.
      rewrite (body_fingerprint pem_Decode (with_wait d2 n2 a2 w2) data block rest
                 (accepted_0 w2 A2) Hk D (accepted_1 w2 B2)).
      unfold world, result in *. cbn [fst snd resource with_resource] in *.
      split; [reflexivity|]. f_equal. unfold fingerprint_write at 1.
      rewrite (I _ Hr); reflexivity.
    + rewrite (body_no_block pem_Decode (with_wait d1 n1 a1 w1) data rest
                 (accepted_0 w1 A1) K1 D) in Hr |- *.
      rewrite (body_no_block pem_Decode (with_wait d2 n2 a2 w2) data rest
                 (accepted_0 w2 A2) Hk D).
      unfold world, result in *. cbn [fst snd posture_written resource with_resource] in *.
      split; [reflexivity|]. f_equal. apply I; [exact Hr | reflexivity].
Qed.

End Further.

(** ** The further properties at sample inputs *)

Lemma Run_posture_write_refused_witness :
  refused 0 (RuntimeError "conflict")
    (booted_with [Some (RuntimeError "conflict")] (inr sample_PEM))
  /\ effects (Run sample_Decode
                (booted_with [Some (RuntimeError "conflict")] (inr sample_PEM)))
     = [Received]
  /\ result (Run sample_Decode
               (booted_with [Some (RuntimeError "conflict")] (inr sample_PEM)))
     = Returned (Some (RuntimeError "conflict")).
Proof.
  assert (E : wakes_on caseEvent
                (booted_with [Some (RuntimeError "conflict")] (inr sample_PEM)))
    by reflexivity.
  assert (F : refused 0 (RuntimeError "conflict")
                (booted_with [Some (RuntimeError "conflict")] (inr sample_PEM)))
    by reflexivity.
  pose proof (Run_posture_write_refused sample_Decode _ _ E F) as (R & Ef & _).
  split; [exact F|]. split; [exact Ef | exact R].
Defined.

Lemma Run_fingerprint_write_refused_witness :
  refused 1 (RuntimeError "conflict")
    (booted_with [None; Some (RuntimeError "conflict")] (inr sample_PEM))
  /\ result (Run sample_Decode
               (booted_with [None; Some (RuntimeError "conflict")]
                            (inr sample_PEM)))
     = Returned (Some (RuntimeError "conflict"))
  /\ resource (world (Run sample_Decode
                        (booted_with [None; Some (RuntimeError "conflict")]
                                     (inr sample_PEM))))
     = Some {| SecureBoot := true; PCRSigningKeyFingerprint := "" |}.
Proof.
  assert (E : wakes_on caseEvent
                (booted_with [None; Some (RuntimeError "conflict")]
                             (inr sample_PEM))) by reflexivity.
  assert (A : accepted 0
                (booted_with [None; Some (RuntimeError "conflict")]
                             (inr sample_PEM))) by reflexivity.
  assert (F : refused 1 (RuntimeError "conflict")
                (booted_with [None; Some (RuntimeError "conflict")]
                             (inr sample_PEM))) by reflexivity.
  assert (K : PCRPublicKey
                (booted_with [None; Some (RuntimeError "conflict")]
                             (inr sample_PEM)) = inr sample_PEM)
    by reflexivity.
  assert (D : sample_Decode sample_PEM
              = (Some sample_block, list_ascii_of_string "trailing text"))
    by reflexivity.
  pose proof (Run_fingerprint_write_refused sample_Decode _ _ _ _ _ E A F K D)
    as (R & _ & S).
  split; [exact F|]. split; [exact R | exact S].
Defined.

Lemma Run_restart_idempotent_witness :
  restarted (booted (inr sample_PEM))
            (world (Run sample_Decode (booted (inr sample_PEM))))
            (started_again (world (Run sample_Decode (booted (inr sample_PEM))))
                           (inr sample_PEM))
  /\ resource
       (world (Run sample_Decode
                 (started_again
                    (world (Run sample_Decode (booted (inr sample_PEM))))
                    (inr sample_PEM))))
     = resource (world (Run sample_Decode (booted (inr sample_PEM)))).
Proof.
  assert (E1 : wakes_on caseEvent (booted (inr sample_PEM))) by reflexivity.
  assert (A1 : accepted 0 (booted (inr sample_PEM))) by reflexivity.
  assert (B1 : accepted 1 (booted (inr sample_PEM))) by reflexivity.
  assert (R : restarted (booted (inr sample_PEM))
                (world (Run sample_Decode (booted (inr sample_PEM))))
                (started_again
                   (world (Run sample_Decode (booted (inr sample_PEM))))
                   (inr sample_PEM)))
    by (split; [reflexivity|]; split; [reflexivity|]; split; reflexivity).
  assert (E2 : wakes_on caseEvent
                 (started_again
                    (world (Run sample_Decode (booted (inr sample_PEM))))
                    (inr sample_PEM))) by reflexivity.
  assert (A2 : accepted 0
                 (started_again
                    (world (Run sample_Decode (booted (inr sample_PEM))))
                    (inr sample_PEM))) by reflexivity.
  assert (B2 : accepted 1
                 (started_again
                    (world (Run sample_Decode (booted (inr sample_PEM))))
                    (inr sample_PEM))) by reflexivity.
  split; [exact R|].
  exact (proj2 (Run_restart_idempotent sample_Decode _ _ E1 A1 B1 R E2 A2 B2)).
Defined.

(** A fingerprint stored by an earlier run survives a run that finds the key
    file gone. *)
Example Run_keeps_stale_fingerprint :
  resource
    (world (Run sample_Decode
              (mkWorld false 1 [] false
                 (Some {| SecureBoot := false;
                          PCRSigningKeyFingerprint := "AA:BB" |})
                 [] true false (inl (PathError ENOENT)))))
  = Some {| SecureBoot := true; PCRSigningKeyFingerprint := "AA:BB" |}.
Proof. reflexivity. Qed.
